(** * Complexity and security analyzers: a shallow embedding

    The development follows [src/analysis/complexity_analyzer.py] and
    [src/analysis/security_analyzer.py].

    The complexity analyzer is a subclass of Python's [ast.NodeVisitor]; it
    is embedded as a recursive function over a syntax tree type that keeps
    the fields the handlers read and the order in which [generic_visit]
    descends into child nodes.

    The security analyzer is a text that Python cannot compile: four of its
    string literals are cut by a line feed.  It is embedded as that text,
    with the lexical rule that rejects it; the functions it spells out are
    never defined and are not embedded.

    Conventions.
    - A Python [int] is a [Z]; a Python [float] is a binary64 [float].
    - A Python [str] is a [string]; its characters are code points below 256.
    - A Python [list] is a [list]; a [dict] keyed by strings is a [gmap].
    - A computation that may raise is a value of [result]. *)

From Stdlib Require Import ZArith String Ascii List Floats Lia.
From stdpp Require Import base gmap strings list.

Set Warnings "-inexact-float,-register-all".
Local Open Scope string_scope.
Local Open Scope list_scope.
Local Open Scope Z_scope.

(** ** Exceptions *)

Inductive exn : Type :=
| OverflowError
| SyntaxError.

Inductive result (A : Type) : Type :=
| Ok (a : A)
| Raise (e : exn).

Arguments Ok {A} a.
Arguments Raise {A} e.

#[export] Instance result_ret : MRet result := fun A a => Ok a.

#[export] Instance result_bind : MBind result := fun A B k r =>
  match r with
  | Ok a => k a
  | Raise e => Raise e
  end.

(** A [for] loop whose body may raise: the first exception ends the loop. *)
Definition for_each {A S : Type} (body : A -> S -> result S) : list A -> S -> result S :=
  fix loop (l : list A) (s : S) : result S :=
    match l with
    | [] => Ok s
    | x :: l' => s' ← body x s; loop l' s'
    end.

(** ** Python built-ins used by the analyzer *)

Definition len {A : Type} (l : list A) : Z := Z.of_nat (List.length l).

(** The line feed. *)
Definition nl : string := String "010"%char EmptyString.

Module Str.

(** [str.isspace] on a code point below 256. *)
Definition isspace (c : ascii) : bool :=
  let n := N_of_ascii c in
  (((9 <=? n) && (n <=? 13)) || ((28 <=? n) && (n <=? 32))
   || (n =? 133) || (n =? 160))%N.

Fixpoint lstrip (s : string) : string :=
  match s with
  | EmptyString => EmptyString
  | String c s' => if isspace c then lstrip s' else s
  end.

Fixpoint rstrip (s : string) : string :=
  match s with
  | EmptyString => EmptyString
  | String c s' =>
      match rstrip s' with
      | EmptyString => if isspace c then EmptyString else String c EmptyString
      | r => String c r
      end
  end.

(** [s.strip()] *)
Definition strip (s : string) : string := rstrip (lstrip s).

(** [s.startswith(p)] *)
Definition startswith (s p : string) : bool := String.prefix p s.

(** [s.split('\n')] *)
Fixpoint split_lines (s : string) : list string :=
  match s with
  | EmptyString => [EmptyString]
  | String c s' =>
      if Ascii.eqb c "010"%char then EmptyString :: split_lines s'
      else match split_lines s' with
           | l :: ls => String c l :: ls
           | [] => [String c EmptyString]
           end
  end.

(** [bool(s)]: a string is truthy when it is not empty. *)
Definition truthy (s : string) : bool :=
  match s with
  | EmptyString => false
  | String _ _ => true
  end.

(** [s.endswith(p)] *)
Definition endswith (s p : string) : bool :=
  let n := String.length s in
  let k := String.length p in
  (k <=? n)%nat && String.eqb (String.substring (n - k) k s) p.

End Str.

(** ** Syntax trees

    One constructor per node class that a handler of the complexity
    analyzer dispatches on, or that the text of the security analyzer names
    a handler for, and [Other] for every remaining class.  The arguments
    are the class's fields that hold child nodes, in the order of its
    [_fields], together with the name, the line number and the string the
    node carries.  The complexity analyzer reads the names of functions
    and classes only.

    [Str] is a string literal.  Operators and aliases are nodes without
    handlers and without child nodes: visiting them does nothing, and they
    are kept as plain data of the node that holds them. *)

(** [ast.operator] *)
Inductive operator : Type :=
| Add
| Sub
| Mult
| Mod
| OtherOperator.

(** [ast.alias]: one imported name. *)
Record alias : Type := { alias_name : string; asname : option string }.

Inductive node : Type :=
| Module (body : list node)
| FunctionDef (name : string) (args : node) (body decorator_list : list node)
              (returns : option node)
| ClassDef (name : string) (bases keywords body decorator_list : list node)
| If (test : node) (body orelse : list node)
| While (test : node) (body orelse : list node)
| For (target iter : node) (body orelse : list node)
| Try (body handlers orelse finalbody : list node)
| ExceptHandler (type : option node) (body : list node)
| Import (lineno : Z) (names : list alias)
| ImportFrom (lineno : Z) (module : option string) (names : list alias)
| BoolOp (values : list node)
| BinOp (left : node) (op : operator) (right : node)
| Call (lineno : Z) (func : node) (args keywords : list node)
| Name (id : string)
| Attribute (value : node) (attr : string)
| Str (lineno : Z) (s : string)
| Other (children : list node).

Definition opt_list {A : Type} (o : option A) : list A :=
  match o with
  | Some x => [x]
  | None => []
  end.

(** The child nodes of a node, in the order [generic_visit] visits them. *)
Definition children (n : node) : list node :=
  match n with
  | Module body => body
  | FunctionDef _ args body decorator_list returns =>
      args :: body ++ decorator_list ++ opt_list returns
  | ClassDef _ bases keywords body decorator_list =>
      bases ++ keywords ++ body ++ decorator_list
  | If test body orelse => test :: body ++ orelse
  | While test body orelse => test :: body ++ orelse
  | For target iter body orelse => target :: iter :: body ++ orelse
  | Try body handlers orelse finalbody => body ++ handlers ++ orelse ++ finalbody
  | ExceptHandler type body => opt_list type ++ body
  | Import _ _ => []
  | ImportFrom _ _ _ => []
  | BoolOp values => values
  | BinOp l _ r => [l; r]
  | Call _ func args keywords => func :: args ++ keywords
  | Name _ => []
  | Attribute value _ => [value]
  | Str _ _ => []
  | Other children => children
  end.

(** Induction over a tree through the children of each node. *)
Section NodeInduction.

Variable P : node -> Prop.
Hypothesis step : forall n, Forall P (children n) -> P n.

Fixpoint node_children_ind (n : node) : P n :=
  let fix all (l : list node) : Forall P l :=
    match l with
    | [] => List.Forall_nil P
    | x :: l' => List.Forall_cons P x l' (node_children_ind x) (all l')
    end in
  let opt (o : option node) : Forall P (opt_list o) :=
    match o with
    | Some x => List.Forall_cons P x [] (node_children_ind x) (List.Forall_nil P)
    | None => List.Forall_nil P
    end in
  let one (x : node) := List.Forall_cons P x [] (node_children_ind x) (List.Forall_nil P) in
  let app l1 l2 (H1 : Forall P l1) (H2 : Forall P l2) : Forall P (l1 ++ l2) :=
    proj2 (List.Forall_app P l1 l2) (conj H1 H2) in
  step n
    match n return Forall P (children n) with
    | Module body => all body
    | FunctionDef _ args body decorator_list returns =>
        List.Forall_cons P args _ (node_children_ind args)
          (app _ _ (all body) (app _ _ (all decorator_list) (opt returns)))
    | ClassDef _ bases keywords body decorator_list =>
        app _ _ (all bases) (app _ _ (all keywords)
          (app _ _ (all body) (all decorator_list)))
    | If test body orelse =>
        List.Forall_cons P test _ (node_children_ind test) (app _ _ (all body) (all orelse))
    | While test body orelse =>
        List.Forall_cons P test _ (node_children_ind test) (app _ _ (all body) (all orelse))
    | For target iter body orelse =>
        List.Forall_cons P target _ (node_children_ind target)
          (List.Forall_cons P iter _ (node_children_ind iter)
             (app _ _ (all body) (all orelse)))
    | Try body handlers orelse finalbody =>
        app _ _ (all body) (app _ _ (all handlers)
          (app _ _ (all orelse) (all finalbody)))
    | ExceptHandler type body => app _ _ (opt type) (all body)
    | Import _ _ => List.Forall_nil P
    | ImportFrom _ _ _ => List.Forall_nil P
    | BoolOp values => all values
    | BinOp l _ r =>
        List.Forall_cons P l _ (node_children_ind l) (one r)
    | Call _ func args keywords =>
        List.Forall_cons P func _ (node_children_ind func) (app _ _ (all args) (all keywords))
    | Name _ => List.Forall_nil P
    | Attribute value _ => one value
    | Str _ _ => List.Forall_nil P
    | Other children => all children
    end.

End NodeInduction.

(** ** Numbers

    A field annotated [float] in the source holds whatever the code stores in
    it: an [int] or a [float]. *)

Inductive number : Type :=
| PyInt (z : Z)
| PyFloat (f : float).

(** [x < 0] for a number. *)
Definition is_negative (x : number) : bool :=
  match x with
  | PyInt z => z <? 0
  | PyFloat f => PrimFloat.ltb f 0
  end.

(** The least magnitude at which the conversion of an [int] to a [float]
    overflows: half an ulp above the largest finite binary64 value. *)
Definition float_limit : Z := 2 ^ 1024 - 2 ^ 970.

(** The conversion of an [int] operand in mixed arithmetic: the nearest
    binary64 value, ties to even, or [OverflowError] when there is none. *)
Definition float_of_int (z : Z) : result float :=
  if Z.abs z <? float_limit
  then Ok (SF2Prim (binary_normalize prec emax z 0 false))
  else Raise OverflowError.

(** [max(0, x)] for a float [x]: the built-in keeps its first argument
    unless a later one compares greater. *)
Definition max_0 (x : float) : number :=
  if PrimFloat.ltb 0 x then PyFloat x else PyInt 0.

(** ** complexity_analyzer.py *)

Module ComplexityMetrics.

Record t : Type := Build {
  cyclomatic_complexity : Z;
  cognitive_complexity : Z;
  halstead_volume : number;
  maintainability_index : number;
  lines_of_code : Z;
  num_functions : Z;
  num_classes : Z
}.

Definition get_complexity_rating (self : t) : string :=
  if cyclomatic_complexity self <=? 10 then "Low"
  else if cyclomatic_complexity self <=? 20 then "Moderate"
  else if cyclomatic_complexity self <=? 50 then "High"
  else "Very High".

End ComplexityMetrics.

Module ComplexityAnalyzer.

Record t : Type := Build {
  complexity : Z;
  cognitive_complexity : Z;
  nesting_level : Z;
  halstead_operators : list string;
  halstead_operands : list string;
  functions : list string;
  classes : list string
}.

(** [__init__] *)
Definition init : t :=
  {| complexity := 1;
     cognitive_complexity := 0;
     nesting_level := 0;
     halstead_operators := [];
     halstead_operands := [];
     functions := [];
     classes := [] |}.

Definition set_complexity (v : Z) (self : t) : t :=
  Build v (cognitive_complexity self) (nesting_level self)
    (halstead_operators self) (halstead_operands self) (functions self) (classes self).

Definition set_cognitive_complexity (v : Z) (self : t) : t :=
  Build (complexity self) v (nesting_level self)
    (halstead_operators self) (halstead_operands self) (functions self) (classes self).

Definition set_nesting_level (v : Z) (self : t) : t :=
  Build (complexity self) (cognitive_complexity self) v
    (halstead_operators self) (halstead_operands self) (functions self) (classes self).

Definition set_functions (v : list string) (self : t) : t :=
  Build (complexity self) (cognitive_complexity self) (nesting_level self)
    (halstead_operators self) (halstead_operands self) v (classes self).

Definition set_classes (v : list string) (self : t) : t :=
  Build (complexity self) (cognitive_complexity self) (nesting_level self)
    (halstead_operators self) (halstead_operands self) (functions self) v.

(** The handlers.  Each takes [generic_visit], the traversal of the
    children of the node it is called on. *)
Section Handlers.

Variable generic_visit : t -> t.

Definition visit_FunctionDef (name : string) (self : t) : t :=
  let self := set_functions (functions self ++ [name]) self in
  let old_complexity := complexity self in
  let old_cognitive := cognitive_complexity self in
  let self := set_complexity 1 self in
  let self := set_cognitive_complexity 0 self in
  let self := generic_visit self in
  let func_complexity := complexity self in
  let func_cognitive := cognitive_complexity self in
  let self := set_complexity (old_complexity + func_complexity) self in
  set_cognitive_complexity (old_cognitive + func_cognitive) self.

Definition visit_ClassDef (name : string) (self : t) : t :=
  let self := set_classes (classes self ++ [name]) self in
  generic_visit self.

Definition visit_If (self : t) : t :=
  let self := set_complexity (complexity self + 1) self in
  let self := set_cognitive_complexity
                (cognitive_complexity self + (1 + nesting_level self)) self in
  let self := set_nesting_level (nesting_level self + 1) self in
  let self := generic_visit self in
  set_nesting_level (nesting_level self - 1) self.

Definition visit_While (self : t) : t :=
  let self := set_complexity (complexity self + 1) self in
  let self := set_cognitive_complexity
                (cognitive_complexity self + (1 + nesting_level self)) self in
  let self := set_nesting_level (nesting_level self + 1) self in
  let self := generic_visit self in
  set_nesting_level (nesting_level self - 1) self.

Definition visit_For (self : t) : t :=
  let self := set_complexity (complexity self + 1) self in
  let self := set_cognitive_complexity
                (cognitive_complexity self + (1 + nesting_level self)) self in
  let self := set_nesting_level (nesting_level self + 1) self in
  let self := generic_visit self in
  set_nesting_level (nesting_level self - 1) self.

Definition visit_Try (handlers orelse finalbody : list node) (self : t) : t :=
  let self := set_complexity
                (complexity self + (len handlers + len orelse + len finalbody)) self in
  let self := set_cognitive_complexity
                (cognitive_complexity self + (1 + nesting_level self)) self in
  let self := set_nesting_level (nesting_level self + 1) self in
  let self := generic_visit self in
  set_nesting_level (nesting_level self - 1) self.

Definition visit_BoolOp (values : list node) (self : t) : t :=
  let self := set_complexity (complexity self + (len values - 1)) self in
  let self := set_cognitive_complexity
                (cognitive_complexity self + (len values - 1)) self in
  generic_visit self.

(** [NodeVisitor.visit]: the handler named after the node's class, or
    [generic_visit] when the class has none. *)
Definition dispatch (n : node) (self : t) : t :=
  match n with
  | FunctionDef name _ _ _ _ => visit_FunctionDef name self
  | ClassDef name _ _ _ _ => visit_ClassDef name self
  | If _ _ _ => visit_If self
  | While _ _ _ => visit_While self
  | For _ _ _ _ => visit_For self
  | Try _ handlers orelse finalbody => visit_Try handlers orelse finalbody self
  | BoolOp values => visit_BoolOp values self
  | _ => generic_visit self
  end.

End Handlers.

Fixpoint visit (n : node) (self : t) : t :=
  let visit_all (l : list node) (s : t) : t := fold_left (fun s c => visit c s) l s in
  let visit_opt (o : option node) (s : t) : t :=
    match o with
    | Some c => visit c s
    | None => s
    end in
  let generic_visit : t -> t :=
    match n with
    | Module body => visit_all body
    | FunctionDef _ args body decorator_list returns =>
        fun s => visit_opt returns (visit_all decorator_list (visit_all body (visit args s)))
    | ClassDef _ bases keywords body decorator_list =>
        fun s => visit_all decorator_list
                   (visit_all body (visit_all keywords (visit_all bases s)))
    | If test body orelse =>
        fun s => visit_all orelse (visit_all body (visit test s))
    | While test body orelse =>
        fun s => visit_all orelse (visit_all body (visit test s))
    | For target iter body orelse =>
        fun s => visit_all orelse (visit_all body (visit iter (visit target s)))
    | Try body handlers orelse finalbody =>
        fun s => visit_all finalbody
                   (visit_all orelse (visit_all handlers (visit_all body s)))
    | ExceptHandler type body => fun s => visit_all body (visit_opt type s)
    | Import _ _ => fun s => s
    | ImportFrom _ _ _ => fun s => s
    | BoolOp values => visit_all values
    | BinOp l _ r => fun s => visit r (visit l s)
    | Call _ func args keywords =>
        fun s => visit_all keywords (visit_all args (visit func s))
    | Name _ => fun s => s
    | Attribute value _ => visit value
    | Str _ _ => fun s => s
    | Other children => visit_all children
    end in
  dispatch generic_visit n self.

(** [NodeVisitor.generic_visit] *)
Definition generic_visit (n : node) (self : t) : t :=
  fold_left (fun s c => visit c s) (children n) self.

End ComplexityAnalyzer.

Section Complexity.

(** [ast.parse]: the tree of a source text, or [None] for [SyntaxError]. *)
Variable ast_parse : string -> option node.

Definition count_lines_of_code (content : string) : Z :=
  let lines := Str.split_lines content in
  len (List.filter
         (fun line => Str.truthy (Str.strip line)
                      && negb (Str.startswith (Str.strip line) "#"))
         lines).

Definition analyze_file_complexity (content : string) : result ComplexityMetrics.t :=
  match ast_parse content with
  | None => Ok (ComplexityMetrics.Build 0 0 (PyFloat 0) (PyFloat 0) 0 0 0)
  | Some tree =>
      let analyzer := ComplexityAnalyzer.visit tree ComplexityAnalyzer.init in
      let lines_of_code := count_lines_of_code content in
      let halstead_volume :=
        len (ComplexityAnalyzer.halstead_operators analyzer)
        + len (ComplexityAnalyzer.halstead_operands analyzer) in
      c ← float_of_int (ComplexityAnalyzer.complexity analyzer);
      l ← float_of_int lines_of_code;
      let maintainability := max_0 (171 - 5.2 * c - 0.23 * l)%float in
      Ok {| ComplexityMetrics.cyclomatic_complexity :=
              ComplexityAnalyzer.complexity analyzer;
            ComplexityMetrics.cognitive_complexity :=
              ComplexityAnalyzer.cognitive_complexity analyzer;
            ComplexityMetrics.halstead_volume := PyInt halstead_volume;
            ComplexityMetrics.maintainability_index := maintainability;
            ComplexityMetrics.lines_of_code := lines_of_code;
            ComplexityMetrics.num_functions :=
              len (ComplexityAnalyzer.functions analyzer);
            ComplexityMetrics.num_classes :=
              len (ComplexityAnalyzer.classes analyzer) |}
  end.

(** [analyze_project_complexity] over the files the directory walk yields,
    each with its path and contents.  An exception raised for a file is
    caught and reported, and the loop goes on. *)
Definition analyze_project_file (results : gmap string ComplexityMetrics.t)
    (file : string * string) : gmap string ComplexityMetrics.t :=
  let '(file_path, content) := file in
  if Str.endswith file_path ".py" then
    match analyze_file_complexity content with
    | Ok metrics => <[file_path := metrics]> results
    | Raise _ => results
    end
  else results.

Definition analyze_project_complexity (files : list (string * string))
  : gmap string ComplexityMetrics.t :=
  fold_left analyze_project_file files ∅.

End Complexity.

(** ** security_analyzer.py

    The text of this file is not a Python program.  Lines 135, 137, 139 and
    141 each open a raw string literal with a single quote and end before
    the literal is closed: the character class of the pattern is cut by a
    line feed.  Python compiles the whole text of a module before it runs
    its first statement, and the compilation stops at line 135 with
    [SyntaxError].  So none of the classes and functions the text spells
    out ([SecurityAnalyzer], [analyze_file_security],
    [generate_security_report]) is ever defined, and they have no
    behaviour to embed.  What is embedded is the text itself, line by line,
    and the part of Python's lexical analysis that decides where a string
    literal ends. *)

(** The double quote. *)
Definition dq : string := String "034"%char EmptyString.

Module Python.

(** Where the lexical analysis stands in a text: outside any literal, in a
    comment, inside a literal opened by one quote, or inside a literal
    opened by three quotes (after [closing] of its closing quotes in a
    row); the states after a backslash skip the character that follows. *)
Inductive lex_state : Type :=
| Code
| Comment
| Short (quote : ascii)
| ShortEscape (quote : ascii)
| Long (quote : ascii) (closing : nat)
| LongEscape (quote : ascii).

Definition is_quote (c : ascii) : bool :=
  Ascii.eqb c "034"%char || Ascii.eqb c "039"%char.

(** One physical line, from the state at its start to the state before its
    line feed.  A prefix letter such as [r] or [f] does not change where a
    literal ends: a backslash keeps the character after it inside the
    literal, in raw literals as in the others. *)
Fixpoint scan (st : lex_state) (line : string) {struct line} : lex_state :=
  match line with
  | EmptyString => st
  | String c rest =>
      match st with
      | Code =>
          if Ascii.eqb c "#"%char then Comment
          else if is_quote c then
            match rest with
            | String c1 (String c2 rest') =>
                if Ascii.eqb c1 c && Ascii.eqb c2 c then scan (Long c 0) rest'
                else scan (Short c) rest
            | _ => scan (Short c) rest
            end
          else scan Code rest
      | Comment => Comment
      | Short q =>
          if Ascii.eqb c "\"%char then scan (ShortEscape q) rest
          else if Ascii.eqb c q then scan Code rest
          else scan (Short q) rest
      | ShortEscape q => scan (Short q) rest
      | Long q closing =>
          if Ascii.eqb c "\"%char then scan (LongEscape q) rest
          else if Ascii.eqb c q then
            if Nat.eqb closing 2 then scan Code rest else scan (Long q (S closing)) rest
          else scan (Long q 0) rest
      | LongEscape q => scan (Long q 0) rest
      end
  end.

(** The line feed that ends a physical line.  Inside a literal opened by one
    quote it is an error, unless a backslash stands right before it; a
    literal opened by three quotes goes on, and a comment ends. *)
Definition end_of_line (st : lex_state) : result lex_state :=
  match st with
  | Code | Comment => Ok Code
  | Short _ => Raise SyntaxError
  | ShortEscape q => Ok (Short q)
  | Long q _ | LongEscape q => Ok (Long q 0)
  end.

Definition tokenize_line (line : string) (st : lex_state) : result lex_state :=
  end_of_line (scan st line).

(** The lexical analysis of a text, from its first line. *)
Definition tokenize (text : list string) : result lex_state :=
  for_each tokenize_line text Code.

End Python.

Module security_analyzer.

(** The 244 lines of the file, as they stand. *)
Definition text : list string :=
  [
   "#!/usr/bin/env python3";
   dq +:+ dq +:+ dq;
   "Security Analyzer for Python Code";
   "Scans for common security vulnerabilities and patterns.";
   dq +:+ dq +:+ dq;
   EmptyString;
   "import ast";
   "import re";
   "from typing import List, Dict, Set";
   "from dataclasses import dataclass";
   "from enum import Enum";
   EmptyString;
   EmptyString;
   "class SecuritySeverity(Enum):";
   "    " +:+ dq +:+ dq +:+ dq +:+ "Security issue severity levels." +:+ dq +:+ dq +:+ dq;
   "    LOW = " +:+ dq +:+ "Low" +:+ dq;
   "    MEDIUM = " +:+ dq +:+ "Medium" +:+ dq;
   "    HIGH = " +:+ dq +:+ "High" +:+ dq;
   "    CRITICAL = " +:+ dq +:+ "Critical" +:+ dq;
   EmptyString;
   EmptyString;
   "@dataclass";
   "class SecurityIssue:";
   "    " +:+ dq +:+ dq +:+ dq +:+ "Container for security issues." +:+ dq +:+ dq +:+ dq;
   "    rule_id: str";
   "    severity: SecuritySeverity";
   "    description: str";
   "    line_number: int";
   "    code_snippet: str";
   "    recommendation: str";
   EmptyString;
   EmptyString;
   "class SecurityAnalyzer(ast.NodeVisitor):";
   "    " +:+ dq +:+ dq +:+ dq +:+ "AST visitor for security analysis." +:+ dq +:+ dq +:+ dq;
   "    ";
   "    def __init__(self, source_lines: List[str]):";
   "        self.issues: List[SecurityIssue] = []";
   "        self.source_lines = source_lines";
   "        self.imports: Set[str] = set()";
   "    ";
   "    def add_issue(self, rule_id: str, severity: SecuritySeverity, ";
   "                  description: str, line_number: int, recommendation: str):";
   "        " +:+ dq +:+ dq +:+ dq +:+ "Add a security issue." +:+ dq +:+ dq +:+ dq;
   "        code_snippet = self.source_lines[line_number - 1] if line_number <= len(self.source_lines) else " +:+ dq +:+ dq;
   "        issue = SecurityIssue(";
   "            rule_id=rule_id,";
   "            severity=severity,";
   "            description=description,";
   "            line_number=line_number,";
   "            code_snippet=code_snippet.strip(),";
   "            recommendation=recommendation";
   "        )";
   "        self.issues.append(issue)";
   "    ";
   "    def visit_Import(self, node: ast.Import) -> None:";
   "        " +:+ dq +:+ dq +:+ dq +:+ "Check imports for security issues." +:+ dq +:+ dq +:+ dq;
   "        for alias in node.names:";
   "            self.imports.add(alias.name)";
   "            ";
   "            # Check for dangerous imports";
   "            dangerous_imports = {";
   "                'pickle': 'Pickle can execute arbitrary code during deserialization',";
   "                'subprocess': 'Subprocess can lead to command injection vulnerabilities',";
   "                'eval': 'Direct eval usage can execute arbitrary code',";
   "                'exec': 'Direct exec usage can execute arbitrary code'";
   "            }";
   "            ";
   "            if alias.name in dangerous_imports:";
   "                self.add_issue(";
   "                    f" +:+ dq +:+ "dangerous_import_{alias.name}" +:+ dq +:+ ",";
   "                    SecuritySeverity.HIGH,";
   "                    f" +:+ dq +:+ "Dangerous import: {dangerous_imports[alias.name]}" +:+ dq +:+ ",";
   "                    node.lineno,";
   "                    f" +:+ dq +:+ "Review usage of {alias.name} and consider safer alternatives" +:+ dq;
   "                )";
   "        ";
   "        self.generic_visit(node)";
   "    ";
   "    def visit_Call(self, node: ast.Call) -> None:";
   "        " +:+ dq +:+ dq +:+ dq +:+ "Check function calls for security issues." +:+ dq +:+ dq +:+ dq;
   "        if isinstance(node.func, ast.Name):";
   "            func_name = node.func.id";
   "            ";
   "            # Check for dangerous functions";
   "            if func_name == 'eval':";
   "                self.add_issue(";
   "                    " +:+ dq +:+ "eval_usage" +:+ dq +:+ ",";
   "                    SecuritySeverity.CRITICAL,";
   "                    " +:+ dq +:+ "Use of eval() can execute arbitrary code" +:+ dq +:+ ",";
   "                    node.lineno,";
   "                    " +:+ dq +:+ "Replace eval() with ast.literal_eval() or safer parsing" +:+ dq;
   "                )";
   "            ";
   "            elif func_name == 'exec':";
   "                self.add_issue(";
   "                    " +:+ dq +:+ "exec_usage" +:+ dq +:+ ",";
   "                    SecuritySeverity.CRITICAL,";
   "                    " +:+ dq +:+ "Use of exec() can execute arbitrary code" +:+ dq +:+ ",";
   "                    node.lineno,";
   "                    " +:+ dq +:+ "Avoid exec() or use restricted execution environments" +:+ dq;
   "                )";
   "            ";
   "            elif func_name == 'input' and len(node.args) == 0:";
   "                self.add_issue(";
   "                    " +:+ dq +:+ "input_without_prompt" +:+ dq +:+ ",";
   "                    SecuritySeverity.MEDIUM,";
   "                    " +:+ dq +:+ "input() without prompt can be confusing" +:+ dq +:+ ",";
   "                    node.lineno,";
   "                    " +:+ dq +:+ "Always provide a clear prompt for user input" +:+ dq;
   "                )";
   "        ";
   "        elif isinstance(node.func, ast.Attribute):";
   "            # Check for SQL injection patterns";
   "            if (isinstance(node.func.value, ast.Name) and ";
   "                node.func.attr in ['execute', 'executemany']):";
   "                ";
   "                for arg in node.args:";
   "                    if isinstance(arg, ast.BinOp) and isinstance(arg.op, (ast.Add, ast.Mod)):";
   "                        self.add_issue(";
   "                            " +:+ dq +:+ "potential_sql_injection" +:+ dq +:+ ",";
   "                            SecuritySeverity.HIGH,";
   "                            " +:+ dq +:+ "Potential SQL injection via string concatenation" +:+ dq +:+ ",";
   "                            node.lineno,";
   "                            " +:+ dq +:+ "Use parameterized queries instead of string concatenation" +:+ dq;
   "                        )";
   "        ";
   "        self.generic_visit(node)";
   "    ";
   "    def visit_Str(self, node: ast.Str) -> None:";
   "        " +:+ dq +:+ dq +:+ dq +:+ "Check string literals for security issues." +:+ dq +:+ dq +:+ dq;
   "        value = node.s.lower()";
   "        ";
   "        # Check for hardcoded credentials patterns";
   "        credential_patterns = [";
   "            r'password\s*=\s*[" +:+ dq +:+ "\'][^" +:+ dq +:+ "\'";
   "]{3,}[" +:+ dq +:+ "\']',";
   "            r'api_key\s*=\s*[" +:+ dq +:+ "\'][^" +:+ dq +:+ "\'";
   "]{10,}[" +:+ dq +:+ "\']',";
   "            r'secret\s*=\s*[" +:+ dq +:+ "\'][^" +:+ dq +:+ "\'";
   "]{10,}[" +:+ dq +:+ "\']',";
   "            r'token\s*=\s*[" +:+ dq +:+ "\'][^" +:+ dq +:+ "\'";
   "]{10,}[" +:+ dq +:+ "\']'";
   "        ]";
   "        ";
   "        for pattern in credential_patterns:";
   "            if re.search(pattern, value, re.IGNORECASE):";
   "                self.add_issue(";
   "                    " +:+ dq +:+ "hardcoded_credentials" +:+ dq +:+ ",";
   "                    SecuritySeverity.HIGH,";
   "                    " +:+ dq +:+ "Potential hardcoded credentials in string literal" +:+ dq +:+ ",";
   "                    node.lineno,";
   "                    " +:+ dq +:+ "Use environment variables or secure config files for credentials" +:+ dq;
   "                )";
   "                break";
   "        ";
   "        # Check for SQL injection keywords";
   "        sql_keywords = ['select ', 'insert ', 'update ', 'delete ', 'drop ', 'create ']";
   "        if any(keyword in value for keyword in sql_keywords):";
   "            if '%s' in value or '.format(' in self.source_lines[node.lineno - 1]:";
   "                self.add_issue(";
   "                    " +:+ dq +:+ "sql_injection_string" +:+ dq +:+ ",";
   "                    SecuritySeverity.MEDIUM,";
   "                    " +:+ dq +:+ "SQL string with potential injection vulnerability" +:+ dq +:+ ",";
   "                    node.lineno,";
   "                    " +:+ dq +:+ "Use parameterized queries for SQL operations" +:+ dq;
   "                )";
   "        ";
   "        self.generic_visit(node)";
   EmptyString;
   EmptyString;
   "def analyze_file_security(file_path: str) -> List[SecurityIssue]:";
   "    " +:+ dq +:+ dq +:+ dq +:+ "Analyze security issues in a Python file." +:+ dq +:+ dq +:+ dq;
   "    with open(file_path, 'r', encoding='utf-8') as f:";
   "        content = f.read()";
   "    ";
   "    try:";
   "        tree = ast.parse(content)";
   "    except SyntaxError:";
   "        return []";
   "    ";
   "    source_lines = content.split('\n')";
   "    analyzer = SecurityAnalyzer(source_lines)";
   "    analyzer.visit(tree)";
   "    ";
   "    return analyzer.issues";
   EmptyString;
   EmptyString;
   "def generate_security_report(issues: List[SecurityIssue]) -> str:";
   "    " +:+ dq +:+ dq +:+ dq +:+ "Generate a security report from issues." +:+ dq +:+ dq +:+ dq;
   "    if not issues:";
   "        return " +:+ dq +:+ "No security issues found." +:+ dq;
   "    ";
   "    report = " +:+ dq +:+ "Security Analysis Report\n" +:+ dq;
   "    report += " +:+ dq +:+ "=" +:+ dq +:+ " * 25 + " +:+ dq +:+ "\n\n" +:+ dq;
   "    ";
   "    # Group by severity";
   "    severity_groups = {}";
   "    for issue in issues:";
   "        if issue.severity not in severity_groups:";
   "            severity_groups[issue.severity] = []";
   "        severity_groups[issue.severity].append(issue)";
   "    ";
   "    for severity in [SecuritySeverity.CRITICAL, SecuritySeverity.HIGH, ";
   "                    SecuritySeverity.MEDIUM, SecuritySeverity.LOW]:";
   "        if severity in severity_groups:";
   "            report += f" +:+ dq +:+ "\n{severity.value} Severity Issues:\n" +:+ dq;
   "            report += " +:+ dq +:+ "-" +:+ dq +:+ " * (len(severity.value) + 17) + " +:+ dq +:+ "\n" +:+ dq;
   "            ";
   "            for issue in severity_groups[severity]:";
   "                report += f" +:+ dq +:+ "\nLine {issue.line_number}: {issue.description}\n" +:+ dq;
   "                report += f" +:+ dq +:+ "  Code: {issue.code_snippet}\n" +:+ dq;
   "                report += f" +:+ dq +:+ "  Recommendation: {issue.recommendation}\n" +:+ dq;
   "    ";
   "    # Summary";
   "    report += f" +:+ dq +:+ "\n\nSummary:\n" +:+ dq;
   "    report += f" +:+ dq +:+ "Total Issues: {len(issues)}\n" +:+ dq;
   "    for severity in severity_groups:";
   "        report += f" +:+ dq +:+ "{severity.value}: {len(severity_groups[severity])}\n" +:+ dq;
   "    ";
   "    return report";
   EmptyString;
   EmptyString;
   "if __name__ == " +:+ dq +:+ "__main__" +:+ dq +:+ ":";
   "    import sys";
   "    import os";
   "    ";
   "    if len(sys.argv) != 2:";
   "        print(" +:+ dq +:+ "Usage: python security_analyzer.py <file_path>" +:+ dq +:+ ")";
   "        sys.exit(1)";
   "    ";
   "    file_path = sys.argv[1]";
   "    ";
   "    if not os.path.exists(file_path):";
   "        print(f" +:+ dq +:+ "Error: File {file_path} does not exist" +:+ dq +:+ ")";
   "        sys.exit(1)";
   "    ";
   "    if not file_path.endswith('.py'):";
   "        print(" +:+ dq +:+ "Error: Only Python files (.py) are supported" +:+ dq +:+ ")";
   "        sys.exit(1)";
   "    ";
   "    issues = analyze_file_security(file_path)";
   "    report = generate_security_report(issues)";
   "    print(report)";
   EmptyString
  ].

Section Use.

Context {M A : Type}.

(** What parsing the tokens and running the module body would define. *)
Variable definitions : result M.

(** [import security_analyzer], or the start of
    [python security_analyzer.py <file_path>]: the text is compiled first. *)
Definition load : result M :=
  _ ← Python.tokenize text; definitions.

(** A use of the module: a call of one of its functions, or the run of its
    [__main__] block. *)
Definition call (f : M -> result A) : result A :=
  m ← load; f m.

End Use.

End security_analyzer.

(** ** The traversal as a list

    [walk d n] lists the nodes of [n] in the order [visit] reaches them,
    each with the nesting level it is reached at when [n] itself is
    reached at level [d]. *)

Definition opens_nesting (n : node) : bool :=
  match n with
  | If _ _ _ | While _ _ _ | For _ _ _ _ | Try _ _ _ _ => true
  | _ => false
  end.

Definition child_level (d : Z) (n : node) : Z :=
  if opens_nesting n then d + 1 else d.

Fixpoint walk (d : Z) (n : node) : list (Z * node) :=
  let d' := child_level d n in
  let all (l : list node) := flat_map (walk d') l in
  let opt (o : option node) :=
    match o with
    | Some c => walk d' c
    | None => []
    end in
  (d, n) ::
  match n with
  | Module body => all body
  | FunctionDef _ args body decorator_list returns =>
      walk d' args ++ all body ++ all decorator_list ++ opt returns
  | ClassDef _ bases keywords body decorator_list =>
      all bases ++ all keywords ++ all body ++ all decorator_list
  | If test body orelse => walk d' test ++ all body ++ all orelse
  | While test body orelse => walk d' test ++ all body ++ all orelse
  | For target iter body orelse =>
      walk d' target ++ walk d' iter ++ all body ++ all orelse
  | Try body handlers orelse finalbody =>
      all body ++ all handlers ++ all orelse ++ all finalbody
  | ExceptHandler type body => opt type ++ all body
  | Import _ _ => []
  | ImportFrom _ _ _ => []
  | BoolOp values => all values
  | BinOp l _ r => walk d' l ++ walk d' r
  | Call _ func args keywords => walk d' func ++ all args ++ all keywords
  | Name _ => []
  | Attribute value _ => walk d' value
  | Str _ _ => []
  | Other children => all children
  end.

(** The nodes of a tree in traversal order. *)
Definition nodes (n : node) : list node := map snd (walk 0 n).

Definition sumZ (l : list Z) : Z := fold_right Z.add 0 l.

(** What the handler of one node adds to the counters by itself. *)
Definition own_complexity (n : node) : Z :=
  match n with
  | FunctionDef _ _ _ _ _ => 1
  | If _ _ _ | While _ _ _ | For _ _ _ _ => 1
  | Try _ handlers orelse finalbody => len handlers + len orelse + len finalbody
  | BoolOp values => len values - 1
  | _ => 0
  end.

Definition own_cognitive (entry : Z * node) : Z :=
  let '(d, n) := entry in
  match n with
  | If _ _ _ | While _ _ _ | For _ _ _ _ | Try _ _ _ _ => 1 + d
  | BoolOp values => len values - 1
  | _ => 0
  end.

Definition own_function (n : node) : list string :=
  match n with
  | FunctionDef name _ _ _ _ => [name]
  | _ => []
  end.

Definition own_class (n : node) : list string :=
  match n with
  | ClassDef name _ _ _ _ => [name]
  | _ => []
  end.

(** The state of the complexity analyzer after the nodes of [w] have been
    visited from [self]. *)
Definition after_walk (w : list (Z * node)) (self : ComplexityAnalyzer.t)
  : ComplexityAnalyzer.t :=
  ComplexityAnalyzer.Build
    (ComplexityAnalyzer.complexity self + sumZ (map (fun e => own_complexity (snd e)) w))
    (ComplexityAnalyzer.cognitive_complexity self + sumZ (map own_cognitive w))
    (ComplexityAnalyzer.nesting_level self)
    (ComplexityAnalyzer.halstead_operators self)
    (ComplexityAnalyzer.halstead_operands self)
    (ComplexityAnalyzer.functions self ++ flat_map (fun e => own_function (snd e)) w)
    (ComplexityAnalyzer.classes self ++ flat_map (fun e => own_class (snd e)) w).

(** ** Shapes of trees and example files *)

Definition is_FunctionDef (n : node) : bool :=
  match n with
  | FunctionDef _ _ _ _ _ => true
  | _ => false
  end.

Definition is_If (n : node) : bool :=
  match n with
  | If _ _ _ => true
  | _ => false
  end.

Definition is_loop_or_try (n : node) : bool :=
  match n with
  | While _ _ _ | For _ _ _ _ | Try _ _ _ _ => true
  | _ => false
  end.

Definition is_BoolOp (n : node) : bool :=
  match n with
  | BoolOp _ => true
  | _ => false
  end.

(** The number of nodes of a kind in a tree. *)
Definition count_nodes (p : node -> bool) (tree : node) : nat :=
  List.length (List.filter p (nodes tree)).

(** A parser that knows one file: [source] parses to [tree], and any other
    text is a syntax error. *)
Definition parser_of (source : string) (tree : node) (content : string) : option node :=
  if String.eqb content source then Some tree else None.

(** A file with one dangerous import and one function holding an if/else. *)
Definition scenario_source : string :=
  "import pickle
def classify(x):
    if x:
        return 1
    else:
        return 0
".

Definition scenario_tree : node :=
  Module
    [Import 1 [{| alias_name := "pickle"; asname := None |}];
     FunctionDef "classify" (Other [Other []])
       [If (Name "x") [Other [Other []]] [Other [Other []]]]
       [] None].

(** A [try] statement with two handlers, an [else] body of two statements
    and a [finally] body of one. *)
Definition try_example : node :=
  Try [Other []]
      [ExceptHandler (Some (Name "ValueError")) [Other []];
       ExceptHandler (Some (Name "KeyError")) [Other []]]
      [Other []; Other []]
      [Other []].

(** A text that is not a program. *)
Definition broken_source : string := "def broken(:".

(** ** Further shapes *)

Definition is_ClassDef (n : node) : bool :=
  match n with
  | ClassDef _ _ _ _ _ => true
  | _ => false
  end.

(** A boolean operation holds at least one operand (a parser gives it at
    least two). *)
Definition bool_op_has_operand (n : node) : bool :=
  match n with
  | BoolOp [] => false
  | _ => true
  end.

Definition bool_ops_have_operands (tree : node) : bool :=
  forallb bool_op_has_operand (nodes tree).

(** ** The maintainability index in the words of the spec

    The spec gives the index as
    [max(0, 171 - 5.2 * rootCyclomaticComplexity - 0.23 * linesOfCode)].
    It is written here over [spec_float], the IEEE 754 values of binary64
    and their operations as the standard specifies them, without any of
    the definitions of the embedding of the code. *)

(** An integer as a binary64 value: the nearest one, ties to even. *)
Definition spec_real_of_int (z : Z) : spec_float :=
  binary_normalize prec emax z 0 false.

(** The constants 171, 5.2 and 0.23 as binary64 values [m * 2 ^ e]. *)
Definition spec_171 : spec_float := S754_finite false 6016527627190272 (-45).
Definition spec_5_2 : spec_float := S754_finite false 5854679515581645 (-50).
Definition spec_0_23 : spec_float := S754_finite false 8286623314361713 (-55).

Definition spec_maintainability_index (cc loc : Z) : spec_float :=
  let x := SF64sub (SF64sub spec_171 (SF64mul spec_5_2 (spec_real_of_int cc)))
                   (SF64mul spec_0_23 (spec_real_of_int loc)) in
  if SFltb (S754_zero false) x then x else S754_zero false.

(** The formula in exact arithmetic, times 100:
    [max(0, 171 - 5.2 * cc - 0.23 * loc) = max(0, 17100 - 520 * cc - 23 * loc) / 100]. *)
Definition spec_exact_index_times_100 (cc loc : Z) : Z :=
  Z.max 0 (17100 - 520 * cc - 23 * loc).

(** A binary64 value lies within [2 ^ - bits] of the rational [num / 100]. *)
Definition within (bits : Z) (x : spec_float) (num : Z) : bool :=
  match x with
  | S754_zero _ => Z.abs num * 2 ^ bits <=? 100
  | S754_finite s m e =>
      let v := if s then Z.neg m else Z.pos m in
      if e <? 0
      then Z.abs (100 * v - num * 2 ^ (- e)) * 2 ^ bits <=? 100 * 2 ^ (- e)
      else Z.abs (100 * v * 2 ^ e - num) * 2 ^ bits <=? 100
  | _ => false
  end.

(** The integers from 0 to [n - 1]. *)
Definition range (n : nat) : list Z := map Z.of_nat (seq 0 n).

(** The value a field annotated [float] holds, as a binary64 value. *)
Definition number_value (x : number) : spec_float :=
  match x with
  | PyInt z => spec_real_of_int z
  | PyFloat f => Prim2SF f
  end.

(** The lines of a text that cannot be scanned from outside a literal,
    numbered from 1. *)
Definition unterminated_lines (text : list string) : list nat :=
  List.filter
    (fun i => match text !! (i - 1)%nat with
              | Some line =>
                  match Python.tokenize_line line Python.Code with
                  | Raise _ => true
                  | Ok _ => false
                  end
              | None => false
              end)
    (seq 1 (List.length text)).

(** * Properties *)

(** ** The exception monad and the loops *)

Lemma for_each_app {A S : Type} (body : A -> S -> result S) (l1 l2 : list A) (s : S) :
  for_each body (l1 ++ l2) s = (s' ← for_each body l1 s; for_each body l2 s').
Proof.
  revert s. induction l1 as [|x l1 IH]; intros s; simpl; [reflexivity|].
  destruct (body x s) as [s'|e]; simpl; [apply IH | reflexivity].
Qed.

Lemma bind_Ok_l {A B : Type} (a : A) (f : A -> result B) : (x ← Ok a; f x) = f a.
Proof. reflexivity. Qed.

Lemma bind_Raise_l {A B : Type} (e : exn) (f : A -> result B) :
  (x ← Raise e; f x) = Raise e.
Proof. reflexivity. Qed.

Lemma bind_Ok_r {A : Type} (r : result A) : (x ← r; Ok x) = r.
Proof. destruct r; reflexivity. Qed.

Lemma sumZ_app (l1 l2 : list Z) : sumZ (l1 ++ l2) = sumZ l1 + sumZ l2.
Proof. induction l1 as [|x l1 IH]; simpl; [reflexivity | rewrite IH; lia]. Qed.

(** ** The traversal list *)

Lemma walk_eq (d : Z) (n : node) :
  walk d n = (d, n) :: flat_map (walk (child_level d n)) (children n).
Proof.
  destruct n as [| | | | | | | type ? | | | | | | | | |];
    try destruct returns; try destruct type;
    cbn [walk children opt_list];
    repeat (progress cbn [flat_map] || rewrite flat_map_app);
    rewrite ?app_nil_r; reflexivity.
Qed.

Lemma walk_nodes (n : node) : forall d, map snd (walk d n) = nodes n.
Proof.
  assert (H : forall d d', map snd (walk d n) = map snd (walk d' n)).
  { induction n as [n IH] using node_children_ind. intros d d'.
    rewrite !walk_eq. cbn [map snd]. f_equal.
    generalize (child_level d n) (child_level d' n). intros e e'.
    induction IH as [|c l Hc _ IHl]; cbn [flat_map]; [reflexivity|].
    rewrite !map_app, (Hc e e'), IHl. reflexivity. }
  intros d. apply H.
Qed.

Lemma nodes_eq (n : node) : nodes n = n :: flat_map nodes (children n).
Proof.
  unfold nodes at 1. rewrite walk_eq. cbn [map snd]. f_equal.
  induction (children n) as [|c l IH]; cbn [flat_map]; [reflexivity|].
  rewrite map_app, walk_nodes, IH. reflexivity.
Qed.

(** ** The complexity analyzer is the sum of its handlers *)

Module ComplexityFacts.
Import ComplexityAnalyzer.

Lemma dispatch_ext (g1 g2 : t -> t) (n : node) (self : t) :
  (forall s, g1 s = g2 s) -> dispatch g1 n self = dispatch g2 n self.
Proof.
  intros H. destruct n; cbn [dispatch]; try apply H;
    unfold visit_FunctionDef, visit_ClassDef, visit_If, visit_While, visit_For,
      visit_Try, visit_BoolOp; rewrite H; reflexivity.
Qed.

Lemma visit_handler (n : node) (self : t) :
  visit n self = dispatch (generic_visit n) n self.
Proof.
  destruct n as [| | | | | | | type ? | | | | | | | | |];
    try destruct returns; try destruct type;
    cbn [visit]; apply dispatch_ext; intros st; unfold generic_visit;
    cbn [children opt_list];
    repeat (progress cbn [fold_left] || rewrite fold_left_app); reflexivity.
Qed.

Lemma after_walk_nil (self : t) : after_walk [] self = self.
Proof.
  destruct self; unfold after_walk; cbn.
  rewrite !Z.add_0_r, !app_nil_r. reflexivity.
Qed.

Lemma after_walk_app (w1 w2 : list (Z * node)) (self : t) :
  after_walk (w1 ++ w2) self = after_walk w2 (after_walk w1 self).
Proof.
  unfold after_walk; cbn.
  rewrite !map_app, !sumZ_app, !flat_map_app, !app_assoc, !Z.add_assoc.
  reflexivity.
Qed.

Lemma visit_all_after_walk (d : Z) (l : list node) :
  Forall (fun c => forall s, visit c s = after_walk (walk (nesting_level s) c) s) l ->
  forall self, nesting_level self = d ->
    fold_left (fun s c => visit c s) l self = after_walk (flat_map (walk d) l) self.
Proof.
  induction 1 as [|c l Hc _ IH]; intros self Hd; cbn [fold_left flat_map].
  - symmetry; apply after_walk_nil.
  - rewrite Hc, Hd, after_walk_app. apply IH. exact Hd.
Qed.

(** Visiting a tree adds up, node by node in traversal order, what each
    handler contributes, and leaves every other attribute as it was. *)
Lemma visit_after_walk (n : node) (self : t) :
  visit n self = after_walk (walk (nesting_level self) n) self.
Proof.
  revert self. induction n as [n IH] using node_children_ind. intros self.
  rewrite visit_handler, walk_eq.
  assert (G : forall s, nesting_level s = child_level (nesting_level self) n ->
              generic_visit n s
              = after_walk (flat_map (walk (child_level (nesting_level self) n))
                              (children n)) s)
    by (intros s Hs; apply visit_all_after_walk; assumption).
  change ((nesting_level self, n)
            :: flat_map (walk (child_level (nesting_level self) n)) (children n))
    with ([(nesting_level self, n)]
            ++ flat_map (walk (child_level (nesting_level self) n)) (children n)).
  rewrite after_walk_app.
  set (w := flat_map (walk (child_level (nesting_level self) n)) (children n)) in *.
  destruct n; cbn [dispatch];
    unfold visit_FunctionDef, visit_ClassDef, visit_If, visit_While, visit_For,
      visit_Try, visit_BoolOp;
    rewrite G by reflexivity;
    destruct self; unfold after_walk, set_complexity, set_cognitive_complexity,
      set_nesting_level, set_functions, set_classes;
    cbn -[Z.add Z.sub len]; f_equal; rewrite ?app_nil_r, <- ?app_assoc; try reflexivity; lia.
Qed.

Lemma flat_map_map {A B C : Type} (f : B -> list C) (g : A -> B) (l : list A) :
  flat_map f (map g l) = flat_map (fun x => f (g x)) l.
Proof.
  induction l as [|x l IH]; cbn [map flat_map]; [reflexivity | rewrite IH; reflexivity].
Qed.

(** The analyzer after a whole tree, from the initial state. *)
Lemma visit_init (tree : node) :
  visit tree init
  = Build (1 + sumZ (map own_complexity (nodes tree)))
          (sumZ (map own_cognitive (walk 0 tree)))
          0 [] []
          (flat_map own_function (nodes tree))
          (flat_map own_class (nodes tree)).
Proof.
  rewrite visit_after_walk. unfold after_walk, nodes; cbn.
  rewrite map_map, !flat_map_map. reflexivity.
Qed.

Lemma sum_own_complexity_counts (l : list node) :
  List.filter is_loop_or_try l = [] -> List.filter is_BoolOp l = [] ->
  sumZ (map own_complexity l)
  = Z.of_nat (List.length (List.filter is_FunctionDef l))
    + Z.of_nat (List.length (List.filter is_If l)).
Proof.
  induction l as [|n l IH]; [reflexivity|].
  cbn [List.filter map sumZ fold_right]. fold (sumZ (map own_complexity l)).
  destruct n; cbn [is_loop_or_try is_BoolOp is_FunctionDef is_If own_complexity];
    intros H1 H2; try discriminate; rewrite (IH H1 H2); cbn [List.length]; lia.
Qed.

(** With at most one construct that opens a nesting level, and no boolean
    operation, the cognitive total is that construct's own increment. *)
Lemma own_cognitive_single (n : node) :
  forall d,
    (List.length (List.filter opens_nesting (nodes n)) <= 1)%nat ->
    List.filter is_BoolOp (nodes n) = [] ->
    sumZ (map own_cognitive (walk d n))
    = (1 + d) * Z.of_nat (List.length (List.filter opens_nesting (nodes n))).
Proof.
  induction n as [n IH] using node_children_ind. intros d.
  rewrite nodes_eq, walk_eq.
  assert (L : forall e,
             (List.length (List.filter opens_nesting (flat_map nodes (children n))) <= 1)%nat ->
             List.filter is_BoolOp (flat_map nodes (children n)) = [] ->
             sumZ (map own_cognitive (flat_map (walk e) (children n)))
             = (1 + e) * Z.of_nat (List.length (List.filter opens_nesting
                                                  (flat_map nodes (children n))))).
  { intros e. induction IH as [|c l Hc _ IHl]; cbn [flat_map]; [intros; cbn; lia|].
    rewrite !List.filter_app, !List.length_app, map_app, sumZ_app.
    intros Hle Hb. apply app_eq_nil in Hb as [Hb1 Hb2].
    rewrite Hc, IHl by (assumption || lia). lia. }
  cbn [List.filter map sumZ fold_right]. fold (sumZ (map own_cognitive
    (flat_map (walk (child_level d n)) (children n)))).
  unfold child_level.
  destruct n; cbn [opens_nesting is_BoolOp own_cognitive List.length];
    intros Hle Hb; try discriminate; rewrite L by (assumption || lia); lia.
Qed.

(** The metrics of a parsed file, when the two conversions to [float] that
    the maintainability formula performs are in range. *)
Lemma analyze_file_complexity_parsed (ast_parse : string -> option node)
    (content : string) (tree : node) :
  ast_parse content = Some tree ->
  let analyzer := visit tree init in
  Z.abs (complexity analyzer) < float_limit ->
  count_lines_of_code content < float_limit ->
  exists c l,
    float_of_int (complexity analyzer) = Ok c
    /\ float_of_int (count_lines_of_code content) = Ok l
    /\ analyze_file_complexity ast_parse content
       = Ok {| ComplexityMetrics.cyclomatic_complexity := complexity analyzer;
               ComplexityMetrics.cognitive_complexity := cognitive_complexity analyzer;
               ComplexityMetrics.halstead_volume :=
                 PyInt (len (halstead_operators analyzer)
                        + len (halstead_operands analyzer));
               ComplexityMetrics.maintainability_index :=
                 max_0 (171 - 5.2 * c - 0.23 * l)%float;
               ComplexityMetrics.lines_of_code := count_lines_of_code content;
               ComplexityMetrics.num_functions := len (functions analyzer);
               ComplexityMetrics.num_classes := len (classes analyzer) |}.
Proof.
  intros Hp analyzer Hc Hl. unfold analyze_file_complexity. rewrite Hp.
  fold analyzer. unfold float_of_int.
  assert (Hl' : Z.abs (count_lines_of_code content) < float_limit).
  { unfold count_lines_of_code, len in *. lia. }
  apply Z.ltb_lt in Hc, Hl'. rewrite Hc, Hl'.
  eexists _, _. repeat split.
Qed.

End ComplexityFacts.

(** ** Counting nodes *)

Lemma length_filter_opens_nesting (l : list node) :
  List.length (List.filter opens_nesting l)
  = (List.length (List.filter is_If l) + List.length (List.filter is_loop_or_try l))%nat.
Proof.
  induction l as [|n l IH]; [reflexivity|].
  destruct n; cbn [List.filter opens_nesting is_If is_loop_or_try List.length];
    rewrite IH; lia.
Qed.

Lemma length_own_function (l : list node) :
  List.length (flat_map own_function l) = List.length (List.filter is_FunctionDef l).
Proof.
  induction l as [|n l IH]; [reflexivity|].
  destruct n; cbn [flat_map own_function List.filter is_FunctionDef List.length app];
    rewrite IH; reflexivity.
Qed.

Lemma length_filter_0 {A : Type} (p : A -> bool) (l : list A) :
  List.length (List.filter p l) = 0%nat -> List.filter p l = [].
Proof. destruct (List.filter p l); [reflexivity | discriminate]. Qed.

(** ** The embedding on small inputs *)

(** An [if] inside an [if]: 1 at nesting level 0, then 2 at level 1. *)
Example nested_if_cognitive :
  ComplexityAnalyzer.visit (If (Name "a") [If (Name "b") [Other []] []] [])
    ComplexityAnalyzer.init
  = ComplexityAnalyzer.Build 3 3 0 [] [] [] [].
Proof. reflexivity. Qed.

(** An [elif] is an [if] in the [orelse] of the first one. *)
Example elif_chain_cognitive :
  ComplexityAnalyzer.cognitive_complexity
    (ComplexityAnalyzer.visit
       (If (Name "a") [Other []] [If (Name "b") [Other []] [Other []]])
       ComplexityAnalyzer.init)
  = 3.
Proof. reflexivity. Qed.

(** A boolean operation with three operands adds 2 to both counters. *)
Example bool_op_three_operands :
  ComplexityAnalyzer.visit (BoolOp [Name "a"; Name "b"; Name "c"]) ComplexityAnalyzer.init
  = ComplexityAnalyzer.Build 3 2 0 [] [] [] [].
Proof. reflexivity. Qed.

(** A class and a method: the class is recorded, the method is a scope. *)
Example class_with_method :
  ComplexityAnalyzer.visit
    (ClassDef "Box" [] [] [FunctionDef "get" (Other []) [Other []] [] None] [])
    ComplexityAnalyzer.init
  = ComplexityAnalyzer.Build 2 0 0 [] [] ["get"] ["Box"].
Proof. reflexivity. Qed.

Example rating_bands :
  map (fun c => ComplexityMetrics.get_complexity_rating
                  (ComplexityMetrics.Build c 0 (PyInt 0) (PyInt 0) 0 0 0))
      [10; 11; 20; 21; 50; 51]
  = ["Low"; "Moderate"; "Moderate"; "High"; "High"; "Very High"].
Proof. reflexivity. Qed.

(** The floor of the maintainability index is reached: 171 - 5.2 * 40 < 0. *)
Example maintainability_floor_reached :
  (c ← float_of_int 40; l ← float_of_int 10; Ok (max_0 (171 - 5.2 * c - 0.23 * l)%float))
  = Ok (PyInt 0).
Proof. vm_compute. reflexivity. Qed.

(** ** Floats *)

Lemma ltb_0_asym (x : float) : PrimFloat.ltb 0 x = true -> PrimFloat.ltb x 0 = false.
Proof.
  rewrite !ltb_spec. change (Prim2SF 0) with (S754_zero false).
  destruct (Prim2SF x) as [[|]|[|]| |[|] m e]; cbn; congruence.
Qed.

Lemma max_0_not_negative (x : float) : is_negative (max_0 x) = false.
Proof.
  unfold max_0. destruct (PrimFloat.ltb 0 x) eqn:H; cbn [is_negative].
  - apply ltb_0_asym. exact H.
  - reflexivity.
Qed.

(** The machine operations meet the IEEE 754 specification. *)

Lemma binary_round_sign (p : positive) :
  valid_binary (binary_round prec emax true p 0)
  = valid_binary (binary_round prec emax false p 0).
Proof.
  unfold binary_round, binary_round_aux.
  destruct (shl_align _ _ _) as [mz ez].
  destruct (shr_fexp prec emax (Z.pos mz) ez loc_Exact) as [mrs' e'].
  destruct (shr_fexp _ _ _ e' loc_Exact) as [mrs'' e''].
  destruct (shr_m mrs''); try reflexivity.
  destruct (e'' <=? emax - prec); reflexivity.
Qed.

Lemma spec_real_of_int_valid (z : Z) :
  Z.abs z < 2 ^ 63 -> valid_binary (spec_real_of_int z) = true.
Proof.
  intros Hz.
  assert (P : forall p, Z.pos p < 2 ^ 63 ->
                valid_binary (binary_round prec emax false p 0) = true).
  { intros p Hp.
    change (binary_round prec emax false p 0)
      with (binary_normalize prec emax (Z.pos p) 0 false).
    rewrite (Uint63.is_int (Z.pos p)) by (split; [lia | exact Hp]).
    rewrite <- of_uint63_spec. apply Prim2SF_valid. }
  unfold spec_real_of_int. destruct z as [|p|p]; cbn [binary_normalize].
  - reflexivity.
  - apply P. exact Hz.
  - rewrite binary_round_sign. apply P. exact Hz.
Qed.

Lemma Prim2SF_real_of_int (z : Z) :
  Z.abs z < 2 ^ 63 -> Prim2SF (SF2Prim (spec_real_of_int z)) = spec_real_of_int z.
Proof. intros Hz. apply Prim2SF_SF2Prim, spec_real_of_int_valid, Hz. Qed.

(** The constants of the spec are the binary64 values nearest to 171, 52/10
    and 23/100: the first is exact, the others are within half a unit in
    the last place. *)
Lemma spec_constants_nearest :
  6016527627190272 = 171 * 2 ^ 45
  /\ Z.abs (10 * 5854679515581645 - 52 * 2 ^ 50) <= 5
  /\ Z.abs (100 * 8286623314361713 - 23 * 2 ^ 55) <= 50.
Proof. vm_compute. repeat split; discriminate. Qed.

Lemma float_of_int_spec (z : Z) (f : float) :
  Z.abs z < 2 ^ 63 -> float_of_int z = Ok f -> Prim2SF f = spec_real_of_int z.
Proof.
  intros Hz. unfold float_of_int.
  destruct (Z.abs z <? float_limit); [|discriminate].
  intros [= <-]. apply Prim2SF_real_of_int. exact Hz.
Qed.

Lemma max_0_spec (cc loc : Z) (c l : float) :
  Prim2SF c = spec_real_of_int cc -> Prim2SF l = spec_real_of_int loc ->
  number_value (max_0 (171 - 5.2 * c - 0.23 * l)%float)
  = spec_maintainability_index cc loc.
Proof.
  intros Hc Hl. set (x := (171 - 5.2 * c - 0.23 * l)%float).
  assert (Hx : Prim2SF x
               = SF64sub (SF64sub spec_171 (SF64mul spec_5_2 (spec_real_of_int cc)))
                   (SF64mul spec_0_23 (spec_real_of_int loc))).
  { unfold x. rewrite !FloatAxioms.sub_spec, !FloatAxioms.mul_spec, Hc, Hl. reflexivity. }
  unfold spec_maintainability_index, max_0. cbv zeta. rewrite <- Hx.
  rewrite FloatAxioms.ltb_spec. change (Prim2SF 0) with (S754_zero false).
  destruct (SFltb (S754_zero false) (Prim2SF x)); reflexivity.
Qed.

Lemma forallb_range (f : Z -> bool) (n : nat) (z : Z) :
  forallb f (range n) = true -> 0 <= z < Z.of_nat n -> f z = true.
Proof.
  intros H Hz. rewrite forallb_forall in H. apply H.
  unfold range. apply in_map_iff. exists (Z.to_nat z).
  split; [lia | apply in_seq; lia].
Qed.

(** Wherever the exact index can be positive, and past its border, the
    index of the spec in binary64 is within [2 ^ - 44] of the exact one. *)
Lemma spec_index_close_to_exact (cc loc : Z) :
  0 <= cc <= 40 -> 0 <= loc <= 800 ->
  within 44 (spec_maintainability_index cc loc) (spec_exact_index_times_100 cc loc) = true.
Proof.
  intros Hc Hl.
  assert (H : forallb
                (fun c => forallb
                            (fun l => within 44 (spec_maintainability_index c l)
                                        (spec_exact_index_times_100 c l))
                            (range 801))
                (range 41) = true) by (vm_compute; reflexivity).
  apply (forallb_range _ 41 cc) in H; [|lia].
  apply (forallb_range _ 801 loc) in H; [exact H | lia].
Qed.

(** ** security_analyzer.py does not compile *)

Lemma tokenize_text : Python.tokenize security_analyzer.text = Raise SyntaxError.
Proof. vm_compute. reflexivity. Qed.

Lemma load_raises {M : Type} (definitions : result M) :
  security_analyzer.load definitions = Raise SyntaxError.
Proof. unfold security_analyzer.load. rewrite tokenize_text. reflexivity. Qed.

Lemma call_raises {M A : Type} (definitions : result M) (f : M -> result A) :
  security_analyzer.call definitions f = Raise SyntaxError.
Proof. unfold security_analyzer.call. rewrite load_raises. reflexivity. Qed.

(** ** The claims *)

(** C1 (amended).  For a parsed file whose tree holds exactly one function
    definition and exactly one [if] statement, no loop, [try] or boolean
    operation, the complexity analysis yields cyclomatic complexity 3 (the
    base 1 of the module scope, the base 1 of the function scope folded
    into it, and 1 for the [if]), cognitive complexity 1 and function
    count 1; the count of code lines converts to [float].  Whatever else
    the file holds, a dangerous import for one, does not change these
    numbers.  Nothing is stated of a security finding: the module that
    would issue it does not compile. *)
Theorem one_function_single_if_scenario (ast_parse : string -> option node)
    (content : string) (tree : node) :
  ast_parse content = Some tree ->
  count_nodes is_FunctionDef tree = 1%nat ->
  count_nodes is_If tree = 1%nat ->
  count_nodes is_loop_or_try tree = 0%nat ->
  count_nodes is_BoolOp tree = 0%nat ->
  count_lines_of_code content < float_limit ->
  exists m, analyze_file_complexity ast_parse content = Ok m
            /\ ComplexityMetrics.cyclomatic_complexity m = 3
            /\ ComplexityMetrics.cognitive_complexity m = 1
            /\ ComplexityMetrics.num_functions m = 1.
Proof.
  unfold count_nodes. intros Hp Hfd Hif Hloop Hbool Hloc.
  pose proof (length_filter_0 _ _ Hloop) as Hloop'.
  pose proof (length_filter_0 _ _ Hbool) as Hbool'.
  pose proof (ComplexityFacts.visit_init tree) as Hv.
  assert (Hcc : sumZ (map own_complexity (nodes tree)) = 2).
  { rewrite ComplexityFacts.sum_own_complexity_counts by assumption.
    rewrite Hfd, Hif. reflexivity. }
  assert (Hcg : sumZ (map own_cognitive (walk 0 tree)) = 1).
  { rewrite ComplexityFacts.own_cognitive_single
      by (rewrite ?length_filter_opens_nesting, ?Hif, ?Hloop; (lia || assumption)).
    rewrite length_filter_opens_nesting, Hif, Hloop. reflexivity. }
  rewrite Hcc, Hcg in Hv.
  destruct (ComplexityFacts.analyze_file_complexity_parsed ast_parse content tree Hp)
    as (c & l & _ & _ & Hm); [rewrite Hv; reflexivity | exact Hloc |].
  eexists. split; [exact Hm|]. rewrite Hv. cbn.
  repeat split. unfold len. rewrite length_own_function, Hfd. reflexivity.
Qed.

Lemma one_function_single_if_scenario_witness :
  exists m,
    analyze_file_complexity (parser_of scenario_source scenario_tree) scenario_source = Ok m
    /\ ComplexityMetrics.cyclomatic_complexity m = 3
    /\ ComplexityMetrics.cognitive_complexity m = 1
    /\ ComplexityMetrics.num_functions m = 1.
Proof.
  apply (one_function_single_if_scenario
           (parser_of scenario_source scenario_tree) scenario_source scenario_tree);
    vm_compute; reflexivity.
Defined.

(** C1, as stated, fails on the scenario file: its cyclomatic complexity
    is 3, not 2. *)
Lemma scenario_cyclomatic_is_not_2 :
  (exists m,
     analyze_file_complexity (parser_of scenario_source scenario_tree) scenario_source = Ok m
     /\ ComplexityMetrics.cyclomatic_complexity m = 3)
  /\ ~ (exists m,
          analyze_file_complexity (parser_of scenario_source scenario_tree) scenario_source
          = Ok m
          /\ ComplexityMetrics.cyclomatic_complexity m = 2
          /\ ComplexityMetrics.cognitive_complexity m = 1
          /\ ComplexityMetrics.num_functions m = 1).
Proof.
  assert (H : exists m,
             analyze_file_complexity (parser_of scenario_source scenario_tree)
               scenario_source = Ok m
             /\ ComplexityMetrics.cyclomatic_complexity m = 3).
  { eexists. split; [vm_compute; reflexivity | reflexivity]. }
  split; [exact H|].
  destruct H as (m & Hm & H3). intros (m' & Hm' & H2 & _).
  rewrite Hm in Hm'. injection Hm' as <-. rewrite H3 in H2. discriminate.
Qed.

(** C2 (the code at the failing input).  The handler of a [try] statement
    adds the number of handler clauses plus the number of statements of the
    [else] body plus the number of statements of the [finally] body, on top
    of what the nodes below it add: with two handlers, an [else] of two
    statements and a [finally] of one, the cyclomatic complexity grows by 5,
    not by 4. *)
Theorem visit_Try_counts_statements :
  (forall (body handlers orelse finalbody : list node) (self : ComplexityAnalyzer.t),
     ComplexityAnalyzer.complexity
       (ComplexityAnalyzer.visit (Try body handlers orelse finalbody) self)
     = ComplexityAnalyzer.complexity self
       + (len handlers + len orelse + len finalbody)
       + sumZ (map own_complexity
                 (flat_map nodes (body ++ handlers ++ orelse ++ finalbody))))
  /\ (forall self : ComplexityAnalyzer.t,
        ComplexityAnalyzer.complexity (ComplexityAnalyzer.visit try_example self)
        = ComplexityAnalyzer.complexity self + 5).
Proof.
  assert (G : forall n self,
             ComplexityAnalyzer.complexity (ComplexityAnalyzer.visit n self)
             = ComplexityAnalyzer.complexity self + sumZ (map own_complexity (nodes n))).
  { intros n self. rewrite ComplexityFacts.visit_after_walk.
    cbn [after_walk ComplexityAnalyzer.complexity].
    rewrite <- (map_map snd own_complexity), walk_nodes. reflexivity. }
  split.
  - intros body handlers orelse finalbody self. rewrite G, nodes_eq.
    cbn [map sumZ fold_right own_complexity children].
    fold (sumZ (map own_complexity
                  (flat_map nodes (body ++ handlers ++ orelse ++ finalbody)))).
    lia.
  - intros self. rewrite G. reflexivity.
Qed.


(** C4 (the code at the failing input).  No string literal is inspected,
    for any tree and any source lines: building a [SecurityAnalyzer] over
    the lines of a file and visiting its tree stops with [SyntaxError]
    while the module is compiled, so a literal that holds a SQL verb and a
    format marker yields no finding. *)
Theorem string_literals_are_not_inspected {M Analyzer Issues : Type}
    (definitions : result M)
    (SecurityAnalyzer : M -> list string -> result Analyzer)
    (visit : M -> Analyzer -> node -> result Issues)
    (source_lines : list string) (tree : node) :
  security_analyzer.call definitions
    (fun m => analyzer ← SecurityAnalyzer m source_lines;
              visit m analyzer tree)
  = Raise SyntaxError.
Proof. apply call_raises. Qed.


(** C6.  Every metrics record the analysis returns has a maintainability
    index that is not negative.  For a parsed file the record holds the
    complexity reached at the root and the count of code lines, and its
    index is [max(0, 171 - 5.2 * c - 0.23 * l)] in binary64 arithmetic,
    [c] and [l] being these two as floats; when the two are below [2 ^ 63]
    in magnitude, the value of the index is the index of the spec,
    computed by the IEEE 754 operations on the binary64 values nearest to
    171, 5.2, 0.23 and to the two integers; for a complexity from 0 to 40
    and up to 800 lines, which covers every case in which the exact index
    is positive, it is within [2 ^ - 44] of the formula in exact
    arithmetic.  The analysis returns a record whenever both integers
    convert. *)
Theorem maintainability_index_floor (ast_parse : string -> option node)
    (content : string) :
  (forall m, analyze_file_complexity ast_parse content = Ok m ->
             is_negative (ComplexityMetrics.maintainability_index m) = false)
  /\ (forall tree, ast_parse content = Some tree ->
        let analyzer := ComplexityAnalyzer.visit tree ComplexityAnalyzer.init in
        (forall m, analyze_file_complexity ast_parse content = Ok m ->
           ComplexityMetrics.cyclomatic_complexity m = ComplexityAnalyzer.complexity analyzer
           /\ ComplexityMetrics.lines_of_code m = count_lines_of_code content
           /\ (exists c l,
                 float_of_int (ComplexityMetrics.cyclomatic_complexity m) = Ok c
                 /\ float_of_int (ComplexityMetrics.lines_of_code m) = Ok l
                 /\ ComplexityMetrics.maintainability_index m
                    = max_0 (171 - 5.2 * c - 0.23 * l)%float)
           /\ (Z.abs (ComplexityMetrics.cyclomatic_complexity m) < 2 ^ 63 ->
               Z.abs (ComplexityMetrics.lines_of_code m) < 2 ^ 63 ->
               number_value (ComplexityMetrics.maintainability_index m)
               = spec_maintainability_index
                   (ComplexityMetrics.cyclomatic_complexity m)
                   (ComplexityMetrics.lines_of_code m))
           /\ (0 <= ComplexityMetrics.cyclomatic_complexity m <= 40 ->
               0 <= ComplexityMetrics.lines_of_code m <= 800 ->
               within 44 (number_value (ComplexityMetrics.maintainability_index m))
                 (spec_exact_index_times_100
                    (ComplexityMetrics.cyclomatic_complexity m)
                    (ComplexityMetrics.lines_of_code m)) = true))
        /\ (Z.abs (ComplexityAnalyzer.complexity analyzer) < float_limit ->
            count_lines_of_code content < float_limit ->
            exists m, analyze_file_complexity ast_parse content = Ok m)).
Proof.
  assert (P : forall tree, ast_parse content = Some tree ->
            forall m, analyze_file_complexity ast_parse content = Ok m ->
              ComplexityMetrics.cyclomatic_complexity m
              = ComplexityAnalyzer.complexity
                  (ComplexityAnalyzer.visit tree ComplexityAnalyzer.init)
              /\ ComplexityMetrics.lines_of_code m = count_lines_of_code content
              /\ exists c l,
                   float_of_int (ComplexityMetrics.cyclomatic_complexity m) = Ok c
                   /\ float_of_int (ComplexityMetrics.lines_of_code m) = Ok l
                   /\ ComplexityMetrics.maintainability_index m
                      = max_0 (171 - 5.2 * c - 0.23 * l)%float).
  { intros tree Hp m. unfold analyze_file_complexity. rewrite Hp.
    destruct (float_of_int (ComplexityAnalyzer.complexity _)) as [c|e] eqn:Hc;
      [rewrite bind_Ok_l | discriminate].
    destruct (float_of_int (count_lines_of_code content)) as [l|e] eqn:Hl;
      [rewrite bind_Ok_l | discriminate].
    intros H. injection H as <-. cbn. repeat split. exists c, l. repeat split; assumption. }
  split.
  - intros m Hm. destruct (ast_parse content) as [tree|] eqn:Hp.
    + destruct (P tree eq_refl m Hm) as (_ & _ & c & l & _ & _ & ->).
      apply max_0_not_negative.
    + unfold analyze_file_complexity in Hm. rewrite Hp in Hm. injection Hm as <-.
      reflexivity.
  - intros tree Hp analyzer. split.
    + intros m Hm. destruct (P tree Hp m Hm) as (Hcc & Hloc & c & l & Hc & Hl & Hi).
      split; [exact Hcc|]. split; [exact Hloc|].
      split; [exists c, l; repeat split; assumption|].
      assert (S : Z.abs (ComplexityMetrics.cyclomatic_complexity m) < 2 ^ 63 ->
                  Z.abs (ComplexityMetrics.lines_of_code m) < 2 ^ 63 ->
                  number_value (ComplexityMetrics.maintainability_index m)
                  = spec_maintainability_index
                      (ComplexityMetrics.cyclomatic_complexity m)
                      (ComplexityMetrics.lines_of_code m)).
      { intros Bc Bl. rewrite Hi.
        apply max_0_spec; apply float_of_int_spec; assumption. }
      split; [exact S|].
      intros Bc Bl. rewrite S by lia. apply spec_index_close_to_exact; assumption.
    + intros Hc Hl.
      destruct (ComplexityFacts.analyze_file_complexity_parsed ast_parse content tree Hp Hc Hl)
        as (c & l & _ & _ & Hm).
      eexists. exact Hm.
Qed.

(** The index of the scenario file, on both sides: 171 - 5.2 * 3 - 0.23 * 6
    in binary64 is 154.02000000000001, that is 5419110743256760 * 2 ^ -45. *)
Example scenario_maintainability_index :
  (exists m,
     analyze_file_complexity (parser_of scenario_source scenario_tree) scenario_source = Ok m
     /\ ComplexityMetrics.maintainability_index m = PyFloat 154.02000000000001)
  /\ spec_maintainability_index 3 6 = Prim2SF 154.02000000000001.
Proof. split; [eexists; split|]; vm_compute; reflexivity. Qed.

(** C7.  For a parsed file the traversal leaves the operator and operand
    collections empty, so every metrics record the analysis returns has
    Halstead volume 0; and it returns one whenever the root complexity and
    the line count convert to [float]. *)
Theorem halstead_volume_is_zero (ast_parse : string -> option node)
    (content : string) (tree : node) :
  ast_parse content = Some tree ->
  let analyzer := ComplexityAnalyzer.visit tree ComplexityAnalyzer.init in
  ComplexityAnalyzer.halstead_operators analyzer = []
  /\ ComplexityAnalyzer.halstead_operands analyzer = []
  /\ (forall m, analyze_file_complexity ast_parse content = Ok m ->
                ComplexityMetrics.halstead_volume m = PyInt 0)
  /\ (Z.abs (ComplexityAnalyzer.complexity analyzer) < float_limit ->
      count_lines_of_code content < float_limit ->
      exists m, analyze_file_complexity ast_parse content = Ok m
                /\ ComplexityMetrics.halstead_volume m = PyInt 0).
Proof.
  intros Hp analyzer.
  assert (Hv : analyzer = after_walk (walk 0 tree) ComplexityAnalyzer.init)
    by apply ComplexityFacts.visit_after_walk.
  assert (H1 : ComplexityAnalyzer.halstead_operators analyzer = [])
    by (rewrite Hv; reflexivity).
  assert (H2 : ComplexityAnalyzer.halstead_operands analyzer = [])
    by (rewrite Hv; reflexivity).
  assert (H3 : forall m, analyze_file_complexity ast_parse content = Ok m ->
                         ComplexityMetrics.halstead_volume m = PyInt 0).
  { intros m. unfold analyze_file_complexity. rewrite Hp. fold analyzer.
    destruct (float_of_int (ComplexityAnalyzer.complexity analyzer)) as [c|e];
      [rewrite bind_Ok_l | discriminate].
    destruct (float_of_int (count_lines_of_code content)) as [l|e];
      [rewrite bind_Ok_l | discriminate].
    intros H. injection H as <-. cbn [ComplexityMetrics.halstead_volume].
    rewrite H1, H2. reflexivity. }
  repeat split; try assumption.
  intros Hc Hl.
  destruct (ComplexityFacts.analyze_file_complexity_parsed ast_parse content tree Hp Hc Hl)
    as (c & l & _ & _ & Hm).
  eexists. split; [exact Hm | apply H3; exact Hm].
Qed.

Lemma halstead_volume_is_zero_witness :
  let analyzer := ComplexityAnalyzer.visit scenario_tree ComplexityAnalyzer.init in
  ComplexityAnalyzer.halstead_operators analyzer = []
  /\ ComplexityAnalyzer.halstead_operands analyzer = []
  /\ (forall m,
        analyze_file_complexity (parser_of scenario_source scenario_tree) scenario_source
        = Ok m ->
        ComplexityMetrics.halstead_volume m = PyInt 0)
  /\ (Z.abs (ComplexityAnalyzer.complexity analyzer) < float_limit ->
      count_lines_of_code scenario_source < float_limit ->
      exists m,
        analyze_file_complexity (parser_of scenario_source scenario_tree) scenario_source
        = Ok m
        /\ ComplexityMetrics.halstead_volume m = PyInt 0).
Proof.
  apply (halstead_volume_is_zero (parser_of scenario_source scenario_tree)
           scenario_source scenario_tree).
  reflexivity.
Defined.

(** C8 (the code at the failing input).  When the text does not parse, the
    complexity analysis returns the record whose seven fields are 0,
    without raising, and the project loop records it under the file's path
    and goes on with the files that follow.  The security analysis returns
    nothing: a call of [analyze_file_security], on this text as on any
    other, stops with [SyntaxError] while the module is compiled. *)
Theorem parse_failure_yields_zero_results (ast_parse : string -> option node)
    (content : string) :
  ast_parse content = None ->
  let zero := ComplexityMetrics.Build 0 0 (PyFloat 0) (PyFloat 0) 0 0 0 in
  analyze_file_complexity ast_parse content = Ok zero
  /\ (forall (before after : list (string * string)) (file_path : string),
        Str.endswith file_path ".py" = true ->
        analyze_project_complexity ast_parse (before ++ (file_path, content) :: after)
        = fold_left (analyze_project_file ast_parse) after
            (<[file_path := zero]> (analyze_project_complexity ast_parse before)))
  /\ (forall (M Issues : Type) (definitions : result M)
             (analyze_file_security : M -> string -> result Issues),
        security_analyzer.call definitions (fun m => analyze_file_security m content)
        = Raise SyntaxError).
Proof.
  intros Hp zero. unfold analyze_file_complexity. rewrite Hp.
  split; [reflexivity|]. split.
  - intros before after file_path Hpy.
    unfold analyze_project_complexity. rewrite fold_left_app. cbn [fold_left].
    unfold analyze_project_file at 2. rewrite Hpy.
    unfold analyze_file_complexity. rewrite Hp. reflexivity.
  - intros M Issues definitions analyze_file_security. apply call_raises.
Qed.

Lemma parse_failure_yields_zero_results_witness :
  let zero := ComplexityMetrics.Build 0 0 (PyFloat 0) (PyFloat 0) 0 0 0 in
  analyze_file_complexity (parser_of scenario_source scenario_tree) broken_source = Ok zero
  /\ (forall (before after : list (string * string)) (file_path : string),
        Str.endswith file_path ".py" = true ->
        analyze_project_complexity (parser_of scenario_source scenario_tree)
          (before ++ (file_path, broken_source) :: after)
        = fold_left (analyze_project_file (parser_of scenario_source scenario_tree)) after
            (<[file_path := zero]>
               (analyze_project_complexity (parser_of scenario_source scenario_tree)
                  before)))
  /\ (forall (M Issues : Type) (definitions : result M)
             (analyze_file_security : M -> string -> result Issues),
        security_analyzer.call definitions
          (fun m => analyze_file_security m broken_source)
        = Raise SyntaxError).
Proof.
  apply (parse_failure_yields_zero_results (parser_of scenario_source scenario_tree)
           broken_source).
  reflexivity.
Defined.

(** C9.  Visiting any node leaves the nesting level as it was and adds to
    the enclosing counters exactly what the nodes visited contribute; a
    function definition runs its body on counters reset to 1 and 0 and then
    adds the totals reached to the values saved on entry; a traversal from
    the initial state ends at nesting level 0. *)
Theorem scope_and_nesting_balanced (n : node) (self : ComplexityAnalyzer.t) :
  ComplexityAnalyzer.nesting_level (ComplexityAnalyzer.visit n self)
  = ComplexityAnalyzer.nesting_level self
  /\ ComplexityAnalyzer.complexity (ComplexityAnalyzer.visit n self)
     = ComplexityAnalyzer.complexity self + sumZ (map own_complexity (nodes n))
  /\ ComplexityAnalyzer.cognitive_complexity (ComplexityAnalyzer.visit n self)
     = ComplexityAnalyzer.cognitive_complexity self
       + sumZ (map own_cognitive (walk (ComplexityAnalyzer.nesting_level self) n))
  /\ (forall name args body decorator_list returns,
        n = FunctionDef name args body decorator_list returns ->
        let scope :=
          ComplexityAnalyzer.generic_visit n
            (ComplexityAnalyzer.set_cognitive_complexity 0
               (ComplexityAnalyzer.set_complexity 1
                  (ComplexityAnalyzer.set_functions
                     (ComplexityAnalyzer.functions self ++ [name]) self))) in
        ComplexityAnalyzer.complexity (ComplexityAnalyzer.visit n self)
        = ComplexityAnalyzer.complexity self + ComplexityAnalyzer.complexity scope
        /\ ComplexityAnalyzer.cognitive_complexity (ComplexityAnalyzer.visit n self)
           = ComplexityAnalyzer.cognitive_complexity self
             + ComplexityAnalyzer.cognitive_complexity scope
        /\ ComplexityAnalyzer.nesting_level scope = ComplexityAnalyzer.nesting_level self)
  /\ ComplexityAnalyzer.nesting_level (ComplexityAnalyzer.visit n ComplexityAnalyzer.init)
     = 0.
Proof.
  split; [rewrite ComplexityFacts.visit_after_walk; reflexivity|].
  split; [rewrite ComplexityFacts.visit_after_walk;
          cbn [after_walk ComplexityAnalyzer.complexity];
          rewrite <- (map_map snd own_complexity), walk_nodes; reflexivity|].
  split; [rewrite ComplexityFacts.visit_after_walk; reflexivity|].
  split; [|rewrite ComplexityFacts.visit_after_walk; reflexivity].
  intros name args body decorator_list returns -> scope.
  rewrite ComplexityFacts.visit_handler.
  cbn [ComplexityAnalyzer.dispatch]. unfold ComplexityAnalyzer.visit_FunctionDef.
  fold scope. repeat split.
  unfold scope, ComplexityAnalyzer.generic_visit.
  rewrite (ComplexityFacts.visit_all_after_walk (ComplexityAnalyzer.nesting_level self));
    [reflexivity | | reflexivity].
  apply Forall_forall. intros c _ s. apply ComplexityFacts.visit_after_walk.
Qed.


(** * Further properties of the analyzers *)

(** ** The complexity analyzer *)

Lemma length_own_class (l : list node) :
  List.length (flat_map own_class l) = List.length (List.filter is_ClassDef l).
Proof.
  induction l as [|n l IH]; [reflexivity|].
  destruct n; cbn [flat_map own_class List.filter is_ClassDef List.length app];
    rewrite IH; reflexivity.
Qed.

(** X1.  The function count of a parsed file is the number of function
    definitions anywhere in its tree, nested functions and methods
    included, and the class count is the number of class definitions; the
    analyzer holds their names in traversal order. *)
Theorem functions_and_classes_counted (ast_parse : string -> option node)
    (content : string) (tree : node) (m : ComplexityMetrics.t) :
  ast_parse content = Some tree ->
  analyze_file_complexity ast_parse content = Ok m ->
  ComplexityMetrics.num_functions m = Z.of_nat (count_nodes is_FunctionDef tree)
  /\ ComplexityMetrics.num_classes m = Z.of_nat (count_nodes is_ClassDef tree)
  /\ ComplexityAnalyzer.functions (ComplexityAnalyzer.visit tree ComplexityAnalyzer.init)
     = flat_map own_function (nodes tree)
  /\ ComplexityAnalyzer.classes (ComplexityAnalyzer.visit tree ComplexityAnalyzer.init)
     = flat_map own_class (nodes tree).
Proof.
  intros Hp. unfold analyze_file_complexity. rewrite Hp.
  destruct (float_of_int (ComplexityAnalyzer.complexity _)) as [c|e];
    [rewrite bind_Ok_l | discriminate].
  destruct (float_of_int (count_lines_of_code content)) as [l|e];
    [rewrite bind_Ok_l | discriminate].
  intros H. injection H as <-.
  cbn [ComplexityMetrics.num_functions ComplexityMetrics.num_classes].
  rewrite ComplexityFacts.visit_init.
  cbn [ComplexityAnalyzer.functions ComplexityAnalyzer.classes].
  unfold len, count_nodes. rewrite length_own_function, length_own_class.
  repeat split.
Qed.

Lemma functions_and_classes_counted_witness :
  ComplexityMetrics.num_functions
    (ComplexityMetrics.Build 3 1 (PyInt 0) (PyFloat 154.02000000000001) 6 1 0)
  = Z.of_nat (count_nodes is_FunctionDef scenario_tree)
  /\ ComplexityMetrics.num_classes
       (ComplexityMetrics.Build 3 1 (PyInt 0) (PyFloat 154.02000000000001) 6 1 0)
     = Z.of_nat (count_nodes is_ClassDef scenario_tree)
  /\ ComplexityAnalyzer.functions
       (ComplexityAnalyzer.visit scenario_tree ComplexityAnalyzer.init)
     = flat_map own_function (nodes scenario_tree)
  /\ ComplexityAnalyzer.classes
       (ComplexityAnalyzer.visit scenario_tree ComplexityAnalyzer.init)
     = flat_map own_class (nodes scenario_tree).
Proof.
  apply (functions_and_classes_counted (parser_of scenario_source scenario_tree)
           scenario_source scenario_tree); vm_compute; reflexivity.
Defined.

Lemma nodes_Module (body : list node) :
  nodes (Module body) = Module body :: flat_map nodes body.
Proof. apply nodes_eq. Qed.

Lemma walk_Module (d : Z) (body : list node) :
  walk d (Module body) = (d, Module body) :: flat_map (walk d) body.
Proof. apply walk_eq. Qed.

(** X2.  The metrics of a module are additive over its statements: for a
    module whose body is [a] followed by [b], the cyclomatic complexity is
    that of [a] alone plus that of [b] alone minus the one shared base, the
    cognitive complexity is the sum, and the function and class names are
    those of [a] followed by those of [b]. *)
Theorem module_metrics_additive (a b : list node) :
  let whole := ComplexityAnalyzer.visit (Module (a ++ b)) ComplexityAnalyzer.init in
  let first := ComplexityAnalyzer.visit (Module a) ComplexityAnalyzer.init in
  let second := ComplexityAnalyzer.visit (Module b) ComplexityAnalyzer.init in
  ComplexityAnalyzer.complexity whole
  = ComplexityAnalyzer.complexity first + ComplexityAnalyzer.complexity second - 1
  /\ ComplexityAnalyzer.cognitive_complexity whole
     = ComplexityAnalyzer.cognitive_complexity first
       + ComplexityAnalyzer.cognitive_complexity second
  /\ ComplexityAnalyzer.functions whole
     = ComplexityAnalyzer.functions first ++ ComplexityAnalyzer.functions second
  /\ ComplexityAnalyzer.classes whole
     = ComplexityAnalyzer.classes first ++ ComplexityAnalyzer.classes second.
Proof.
  cbv zeta. rewrite !ComplexityFacts.visit_init, !nodes_Module, !walk_Module.
  cbn [ComplexityAnalyzer.complexity ComplexityAnalyzer.cognitive_complexity
       ComplexityAnalyzer.functions ComplexityAnalyzer.classes
       map flat_map own_complexity own_cognitive own_function own_class app sumZ fold_right].
  fold (sumZ (map own_complexity (flat_map nodes (a ++ b)))).
  fold (sumZ (map own_complexity (flat_map nodes a))).
  fold (sumZ (map own_complexity (flat_map nodes b))).
  fold (sumZ (map own_cognitive (flat_map (walk 0) (a ++ b)))).
  fold (sumZ (map own_cognitive (flat_map (walk 0) a))).
  fold (sumZ (map own_cognitive (flat_map (walk 0) b))).
  rewrite !flat_map_app, !map_app, !sumZ_app. repeat split; lia.
Qed.

Lemma walk_level_ge (n : node) :
  forall d e m, In (e, m) (walk d n) -> d <= e.
Proof.
  induction n as [n IH] using node_children_ind. intros d e m.
  rewrite walk_eq. intros [H|H]; [injection H as <- _; lia|].
  apply in_flat_map in H as (c & Hc & Hin).
  rewrite List.Forall_forall in IH. specialize (IH c Hc _ _ _ Hin).
  unfold child_level in IH. destruct (opens_nesting n); lia.
Qed.

Lemma own_complexity_nonneg (n : node) : bool_op_has_operand n = true -> 0 <= own_complexity n.
Proof.
  destruct n as [| | | | | | | | | | [|v values] | | | | | |];
    cbn [own_complexity bool_op_has_operand]; intros H; try discriminate;
    unfold len; cbn [List.length]; lia.
Qed.

Lemma own_cognitive_nonneg (d : Z) (n : node) :
  bool_op_has_operand n = true -> 0 <= d -> 0 <= own_cognitive (d, n).
Proof.
  destruct n as [| | | | | | | | | | [|v values] | | | | | |];
    cbn [own_cognitive bool_op_has_operand]; intros H Hd; try discriminate;
    unfold len; cbn [List.length]; lia.
Qed.

Lemma sumZ_nonneg (l : list Z) : Forall (fun z => 0 <= z) l -> 0 <= sumZ l.
Proof. induction 1; cbn [sumZ fold_right]; [lia | fold (sumZ l); lia]. Qed.

(** X3.  When every boolean operation of a tree holds at least one operand
    and the nesting level is not negative, a visit never lowers a counter;
    from the initial state the cyclomatic complexity ends at 1 plus the
    number of function definitions or more, and the cognitive complexity
    at 0 or more. *)
Theorem counters_never_decrease (n : node) (self : ComplexityAnalyzer.t) :
  bool_ops_have_operands n = true ->
  0 <= ComplexityAnalyzer.nesting_level self ->
  ComplexityAnalyzer.complexity self
  <= ComplexityAnalyzer.complexity (ComplexityAnalyzer.visit n self)
  /\ ComplexityAnalyzer.cognitive_complexity self
     <= ComplexityAnalyzer.cognitive_complexity (ComplexityAnalyzer.visit n self)
  /\ 1 + Z.of_nat (count_nodes is_FunctionDef n)
     <= ComplexityAnalyzer.complexity (ComplexityAnalyzer.visit n ComplexityAnalyzer.init)
  /\ 0 <= ComplexityAnalyzer.cognitive_complexity
            (ComplexityAnalyzer.visit n ComplexityAnalyzer.init).
Proof.
  unfold bool_ops_have_operands. rewrite forallb_forall. intros Hb Hd.
  assert (Hcog : forall d, 0 <= d -> 0 <= sumZ (map own_cognitive (walk d n))).
  { intros d Hd0. apply sumZ_nonneg, Forall_forall. intros z Hz.
    apply list_elem_of_In, in_map_iff in Hz as ([e m] & <- & Hin).
    apply own_cognitive_nonneg.
    - apply Hb. rewrite <- (walk_nodes n d). apply in_map_iff. exists (e, m). split; auto.
    - pose proof (walk_level_ge n d e m Hin). lia. }
  assert (Hfun : Z.of_nat (List.length (List.filter is_FunctionDef (nodes n)))
                 <= sumZ (map own_complexity (nodes n))).
  { revert Hb. generalize (nodes n). intros l Hb.
    induction l as [|x l IHl]; [cbn; lia|].
    cbn [List.filter map sumZ fold_right]. fold (sumZ (map own_complexity l)).
    assert (0 <= own_complexity x) by (apply own_complexity_nonneg, Hb; left; reflexivity).
    assert (Z.of_nat (List.length (List.filter is_FunctionDef l))
            <= sumZ (map own_complexity l)) by (apply IHl; intros y Hy; apply Hb; right; exact Hy).
    destruct x; cbn [is_FunctionDef own_complexity List.length] in *; lia. }
  rewrite ComplexityFacts.visit_after_walk, ComplexityFacts.visit_init.
  cbn [after_walk ComplexityAnalyzer.complexity ComplexityAnalyzer.cognitive_complexity].
  rewrite <- (map_map snd own_complexity), walk_nodes.
  specialize (Hcog _ Hd) as Hc1. specialize (Hcog 0 ltac:(lia)) as Hc0.
  unfold count_nodes. repeat split; lia.
Qed.

Lemma counters_never_decrease_witness :
  ComplexityAnalyzer.complexity ComplexityAnalyzer.init
  <= ComplexityAnalyzer.complexity
       (ComplexityAnalyzer.visit scenario_tree ComplexityAnalyzer.init)
  /\ ComplexityAnalyzer.cognitive_complexity ComplexityAnalyzer.init
     <= ComplexityAnalyzer.cognitive_complexity
          (ComplexityAnalyzer.visit scenario_tree ComplexityAnalyzer.init)
  /\ 1 + Z.of_nat (count_nodes is_FunctionDef scenario_tree)
     <= ComplexityAnalyzer.complexity
          (ComplexityAnalyzer.visit scenario_tree ComplexityAnalyzer.init)
  /\ 0 <= ComplexityAnalyzer.cognitive_complexity
            (ComplexityAnalyzer.visit scenario_tree ComplexityAnalyzer.init).
Proof.
  apply (counters_never_decrease scenario_tree ComplexityAnalyzer.init);
    [reflexivity | cbn; lia].
Defined.

Lemma split_lines_cons (s : string) : exists l ls, Str.split_lines s = l :: ls.
Proof.
  induction s as [|c s (l & ls & IH)]; cbn [Str.split_lines]; [eauto|].
  destruct (Ascii.eqb c "010"); [eauto | rewrite IH; eauto].
Qed.

Lemma split_lines_app_line_feed (a b : string) :
  Str.split_lines (a +:+ String "010"%char b) = Str.split_lines a ++ Str.split_lines b.
Proof.
  induction a as [|c a IH]; [reflexivity|].
  change (String c a +:+ String "010"%char b) with (String c (a +:+ String "010"%char b)).
  cbn [Str.split_lines]. rewrite IH.
  destruct (Ascii.eqb c "010"); [reflexivity|].
  destruct (split_lines_cons a) as (l & ls & ->). reflexivity.
Qed.

Lemma split_lines_app (a b : string) :
  Str.split_lines (a +:+ nl +:+ b) = Str.split_lines a ++ Str.split_lines b.
Proof. apply split_lines_app_line_feed. Qed.

(** X4.  Splitting at line feeds distributes over joining two texts with a
    line feed, so the count of code lines of the joined text is the sum of
    the two counts; the count lies between 0 and the number of lines. *)
Theorem lines_of_code_additive (a b : string) :
  Str.split_lines (a +:+ nl +:+ b) = Str.split_lines a ++ Str.split_lines b
  /\ count_lines_of_code (a +:+ nl +:+ b) = count_lines_of_code a + count_lines_of_code b
  /\ 0 <= count_lines_of_code a <= len (Str.split_lines a).
Proof.
  split; [apply split_lines_app|]. unfold count_lines_of_code, len. split.
  - rewrite split_lines_app, List.filter_app, List.length_app. lia.
  - split; [lia|]. apply inj_le, List.filter_length_le.
Qed.

Lemma project_fold_lookup (ast_parse : string -> option node)
    (files : list (string * string)) (p : string) (m : ComplexityMetrics.t) :
  forall results : gmap string ComplexityMetrics.t,
    fold_left (analyze_project_file ast_parse) files results !! p = Some m ->
    results !! p = Some m
    \/ (Str.endswith p ".py" = true
        /\ exists content, In (p, content) files
                           /\ analyze_file_complexity ast_parse content = Ok m).
Proof.
  induction files as [|[q content] files IH]; intros results H; cbn [fold_left] in H.
  - left. exact H.
  - destruct (IH _ H) as [Hq|(Hpy & c & Hin & Hc)].
    + unfold analyze_project_file in Hq.
      destruct (Str.endswith q ".py") eqn:Hpy; [|left; exact Hq].
      destruct (analyze_file_complexity ast_parse content) as [m'|e] eqn:Hm;
        [|left; exact Hq].
      destruct (decide (q = p)) as [->|Hne].
      * rewrite lookup_insert_eq in Hq. injection Hq as ->.
        right. split; [exact Hpy|]. exists content. split; [left; reflexivity | exact Hm].
      * rewrite lookup_insert_ne in Hq by exact Hne. left. exact Hq.
    + right. split; [exact Hpy|]. exists c. split; [right; exact Hin | exact Hc].
Qed.

Lemma project_fold_keeps (ast_parse : string -> option node)
    (files : list (string * string)) (p : string) :
  ~ In p (map fst files) ->
  forall results : gmap string ComplexityMetrics.t,
    fold_left (analyze_project_file ast_parse) files results !! p = results !! p.
Proof.
  induction files as [|[q content] files IH]; intros Hnot results; [reflexivity|].
  cbn [fold_left]. cbn [map fst] in Hnot.
  rewrite IH by (intros Hin; apply Hnot; right; exact Hin).
  unfold analyze_project_file. destruct (Str.endswith q ".py"); [|reflexivity].
  destruct (analyze_file_complexity ast_parse content); [|reflexivity].
  apply lookup_insert_ne. intros ->. apply Hnot. left. reflexivity.
Qed.

(** X5.  The project analysis maps a path to a record only if the path
    ends in [.py] and the record is what the file analysis returns for a
    file of that path; other files, and files whose analysis raises, leave
    no entry.  The record kept for a path is that of its last file. *)
Theorem project_results_are_file_analyses (ast_parse : string -> option node)
    (files : list (string * string)) (p : string) :
  (forall m, analyze_project_complexity ast_parse files !! p = Some m ->
     Str.endswith p ".py" = true
     /\ exists content, In (p, content) files
                        /\ analyze_file_complexity ast_parse content = Ok m)
  /\ (forall before content after m,
        files = before ++ (p, content) :: after ->
        ~ In p (map fst after) ->
        Str.endswith p ".py" = true ->
        analyze_file_complexity ast_parse content = Ok m ->
        analyze_project_complexity ast_parse files !! p = Some m)
  /\ (Str.endswith p ".py" = false ->
      analyze_project_complexity ast_parse files !! p = None).
Proof.
  assert (H1 : forall m, analyze_project_complexity ast_parse files !! p = Some m ->
                 Str.endswith p ".py" = true
                 /\ exists content, In (p, content) files
                                    /\ analyze_file_complexity ast_parse content = Ok m).
  { intros m H. destruct (project_fold_lookup _ _ _ _ _ H) as [Hempty|Hin];
      [rewrite lookup_empty in Hempty; discriminate | exact Hin]. }
  split; [exact H1|]. split.
  - intros before content after m -> Hnot Hpy Hm.
    unfold analyze_project_complexity. rewrite fold_left_app. cbn [fold_left].
    rewrite project_fold_keeps by exact Hnot.
    unfold analyze_project_file. rewrite Hpy, Hm. apply lookup_insert_eq.
  - intros Hpy. destruct (analyze_project_complexity ast_parse files !! p) as [m|] eqn:Hm;
      [|reflexivity].
    destruct (H1 m eq_refl) as [Hpy' _]. congruence.
Qed.

(** ** The security module *)

(** X14.  The text of [security_analyzer.py] is not a Python program.  Its
    first 134 lines scan from start to end outside any literal; line 135
    opens a literal with a single quote and ends inside it, so the
    lexical analysis of the file, and of any file that starts with its
    first 135 lines, raises [SyntaxError].  The lines that do not scan on
    their own are the eight lines 135 to 142, the two halves of the four
    credential patterns; every other line of the file closes the literals
    opened by one quote that it opens. *)
Theorem security_analyzer_stops_at_line_135 :
  Python.tokenize (take 134 security_analyzer.text) = Ok Python.Code
  /\ (forall rest,
        Python.tokenize (take 135 security_analyzer.text ++ rest) = Raise SyntaxError)
  /\ Python.tokenize security_analyzer.text = Raise SyntaxError
  /\ unterminated_lines security_analyzer.text
     = [135; 136; 137; 138; 139; 140; 141; 142]%nat.
Proof.
  split; [vm_compute; reflexivity|]. split; [|split; vm_compute; reflexivity].
  intros rest. unfold Python.tokenize. rewrite for_each_app.
  replace (for_each Python.tokenize_line (take 135 security_analyzer.text) Python.Code)
    with (@Raise Python.lex_state SyntaxError) by (vm_compute; reflexivity).
  reflexivity.
Qed.
